(** * Sales-data setup scripts: dataset generator, demo orchestrator,
      revenue aggregator

    A shallow embedding of [setup_and_demo.py] and [test.py].

    - Python integers are [Z]; [//] is floor division ([Z.div]) and raises
      [ZeroDivisionError] on a zero divisor.
    - The interpreter's global state (numpy's global [RandomState], the file
      system, and the externally visible process and file events) is a record
      [World], threaded through a state-and-exception monad [M].
    - numpy is an interface ([Numpy]); what the proofs need from it is
      stated as the documented contract of its calls (sizes of the returned
      arrays, half-open integer ranges, the effect of re-seeding), and the
      contract is shown to hold for a small concrete generator
      ([TestRandom]), on which the scripts can be run; a second one
      ([TestPrices]) draws prices from a table and rounds as numpy does.
    - A [float64] is a primitive binary64 float; the built-in [sum] is
      modelled in both of its forms (plain up to CPython 3.11, compensated
      from 3.12), and [np.round] as numpy computes it.
    - A file is the list of its lines, a data line holding the row's
      values: how pandas writes and parses the numbers as text is not
      modelled.
    - [print] calls are modelled for [check_requirements] only, whose
      output they are; [create_batch_script] is a single event. *)

From Stdlib Require Import ZArith List Lia Sorted Ascii String Uint63 Floats.
From stdpp Require Import gmap strings pretty sorting.
Import ListNotations.

Local Open Scope Z_scope.

(** A decimal float literal denotes the nearest binary64, as in Python. *)
#[local] Set Warnings "-inexact-float".

(** ** Python built-ins *)

Module Py.

(** [range(start, stop, step)] for a positive [step]: CPython computes the
    length as [(stop - start - 1) // step + 1] when [start < stop], else 0. *)
Definition range_len (start stop step : Z) : nat :=
  if start <? stop then Z.to_nat ((stop - start - 1) / step + 1) else 0%nat.

Definition range (start stop step : Z) : list Z :=
  List.map (fun i => start + Z.of_nat i * step) (seq 0 (range_len start stop step)).

(** [not s] for a value that is [None] or a string. *)
Definition falsy (s : option string) : bool :=
  match s with
  | None => true
  | Some s => if decide (s = "") then true else false
  end.

(** ASCII part of [str.lower]. *)
Definition lower_ascii (c : ascii) : ascii :=
  let n := nat_of_ascii c in
  if ((65 <=? n) && (n <=? 90))%nat then ascii_of_nat (n + 32) else c.

Fixpoint lower (s : string) : string :=
  match s with
  | EmptyString => EmptyString
  | String c s' => String (lower_ascii c) (lower s')
  end.

End Py.

(** ** Data model *)

(** A [pandas.Timestamp] with hour resolution: hours since 1970-01-01 00:00. *)
Definition Timestamp := Z.

(** ['2020-01-01']: 18262 days after the Unix epoch. *)
Definition date_2020_01_01 : Timestamp := 18262 * 24.

(** One transaction record, a data line of the CSV file. *)
Record Row := mkRow {
  TransactionID : Z;
  OrderDate : Timestamp;
  ProductID : Z;
  ProductName : string;
  Category : string;
  Price : float;
  Quantity : Z;
  CustomerID : Z;
  Region : string
}.

(** A [DataFrame]: its column labels and its rows. *)
Record Frame := mkFrame {
  df_columns : list string;
  df_rows : list Row
}.

(** A line of a CSV file. *)
Inductive Line :=
| HeaderLine (cols : list string)
| DataLine (r : Row).

Definition File := list Line.

Definition data_row (l : Line) : option Row :=
  match l with
  | HeaderLine _ => None
  | DataLine r => Some r
  end.

(** The data rows of a file, in file order. *)
Definition data_rows (f : File) : list Row := omap data_row f.

(** The three randomly drawn integer fields lie in their closed ranges. *)
Definition random_fields_ok (r : Row) : Prop :=
  1000 <= ProductID r <= 9998 /\
  1 <= Quantity r <= 9 /\
  10000 <= CustomerID r <= 99998.

(** The mode of a file write: ['w'] truncates, ['a'] appends. *)
Inductive Mode := ModeW | ModeA.

(** Externally visible actions, in program order. A process handle is the
    position of its [EvPopen] in the trace. *)
Inductive Event :=
| EvToCsv (path : string) (mode : Mode) (header : bool) (nrows : Z)
| EvPopen (argv : list string)
| EvSleep (secs : Z)
| EvWait (proc : nat)
| EvPoll (proc : nat)
| EvTerminate (proc : nat)
| EvCheckRequirements
| EvCreateBatchScript.

Inductive exn := ZeroDivisionError | ValueError | FileNotFoundError | KeyError.

Inductive result (A : Type) :=
| Ok (a : A)
| Raise (e : exn).
Arguments Ok {A} a.
Arguments Raise {A} e.

(** ** numpy *)

(** The numpy calls the scripts make. A call on [np.random] takes the state
    of the global generator and returns the drawn array with the new
    state. *)
Class Numpy (RandomState : Type) := {
  (** [np.random.seed(s)] *)
  rs_seed : Z -> RandomState -> RandomState;
  (** [np.random.randint(low, high, size)] *)
  rs_randint : Z -> Z -> Z -> RandomState -> list Z * RandomState;
  (** [np.random.choice(a, size)] *)
  rs_choice : list string -> Z -> RandomState -> list string * RandomState;
  (** [np.random.lognormal(mean, sigma, size)] *)
  rs_lognormal : Z -> Z -> Z -> RandomState -> list float * RandomState;
  (** [np.round(x, decimals)] on one element *)
  np_round : float -> Z -> float
}.

(** [randint] draws from the half-open range [low, high). *)
Definition randint_half_open {RandomState : Type} {np : Numpy RandomState}
    : Prop :=
  forall low high size s,
    low < high ->
    Forall (fun x => low <= x < high) (fst (rs_randint low high size s)).

(** A small linear congruential generator that implements the interface;
    the contract assumed of numpy below is checked against it. *)
Module TestRandom.

Definition next (s : Z) : Z := (1103515245 * s + 12345) mod 2 ^ 31.

Fixpoint stream (n : nat) (s : Z) : list Z * Z :=
  match n with
  | O => ([], s)
  | S k => let s' := next s in
           let (l, s'') := stream k s' in (s' :: l, s'')
  end.

Definition randint (low high size s : Z) : list Z * Z :=
  let (l, s') := stream (Z.to_nat size) s in
  (List.map (fun x => low + x mod (high - low)) l, s').

Definition choice (a : list string) (size s : Z) : list string * Z :=
  let (l, s') := stream (Z.to_nat size) s in
  (List.map (fun x => nth (Z.to_nat (x mod Z.of_nat (length a))) a ""%string) l, s').

Definition lognormal (mean sigma size s : Z) : list float * Z :=
  let (l, s') := stream (Z.to_nat size) s in
  (List.map (fun x => PrimFloat.of_uint63 (Uint63.of_Z (x mod 1000 + 1))) l, s').

#[export] Instance lcg : Numpy Z := {
  rs_seed := fun z _ => z mod 2 ^ 31;
  rs_randint := randint;
  rs_choice := choice;
  rs_lognormal := lognormal;
  np_round := fun x _ => x
}.

End TestRandom.

Section Scripts.

Context {RandomState : Type} {np : Numpy RandomState}.

(** ['sys.executable'] *)
Variable sys_executable : string.

(** ** Interpreter state and the monad of script actions *)

Record World := mkWorld {
  rng : RandomState;
  fs : gmap string File;
  trace : list Event
}.

Definition M (A : Type) : Type := World -> result (A * World).

Definition ret {A} (a : A) : M A := fun w => Ok (a, w).

Definition bind {A B} (m : M A) (k : A -> M B) : M B :=
  fun w =>
    match m w with
    | Ok (a, w') => k a w'
    | Raise e => Raise e
    end.

Definition raise {A} (e : exn) : M A := fun _ => Raise e.

Notation "x <- c1 ;; c2" := (bind c1 (fun x => c2))
  (at level 100, c1 at next level, right associativity).
Notation "c1 ;; c2" := (bind c1 (fun _ => c2))
  (at level 100, right associativity).

(** [for x in xs: body x] *)
Fixpoint for_each {A} (xs : list A) (body : A -> M unit) : M unit :=
  match xs with
  | [] => ret tt
  | x :: xs' => body x ;; for_each xs' body
  end.

Definition emit (e : Event) : M unit :=
  fun w => Ok (tt, mkWorld (rng w) (fs w) (trace w ++ [e])).

(** Run a generator call on the global [RandomState]. *)
Definition draw {A} (f : RandomState -> A * RandomState) : M A :=
  fun w => let (a, s) := f (rng w) in Ok (a, mkWorld s (fs w) (trace w)).

(** [a // b] *)
Definition floordiv (a b : Z) : M Z :=
  if b =? 0 then raise ZeroDivisionError else ret (a / b).

(** ** pandas *)

(** [pd.date_range(start, periods=periods, freq=f'{hours}H')]: [periods]
    timestamps, [hours] hours apart, from [start]. *)
Definition date_range (start : Timestamp) (periods hours : Z) : list Timestamp :=
  List.map (fun i => start + Z.of_nat i * hours) (seq 0 (Z.to_nat periods)).

(** The rows of [pd.DataFrame(batch_data)]: the columns zipped; pandas
    raises [ValueError] when their lengths differ ([None] here). *)
Fixpoint zip_rows (c1 : list Z) (c2 : list Timestamp) (c3 : list Z)
    (c4 c5 : list string) (c6 : list float) (c7 c8 : list Z)
    (c9 : list string) : option (list Row) :=
  match c1, c2, c3, c4, c5, c6, c7, c8, c9 with
  | [], [], [], [], [], [], [], [], [] => Some []
  | x1 :: c1, x2 :: c2, x3 :: c3, x4 :: c4, x5 :: c5, x6 :: c6, x7 :: c7,
    x8 :: c8, x9 :: c9 =>
      option_map (cons (mkRow x1 x2 x3 x4 x5 x6 x7 x8 x9))
        (zip_rows c1 c2 c3 c4 c5 c6 c7 c8 c9)
  | _, _, _, _, _, _, _, _, _ => None
  end.

(** The [batch_data] dictionary, keys in insertion order. *)
Record BatchData := mkBatchData {
  bd_TransactionID : list Z;
  bd_OrderDate : list Timestamp;
  bd_ProductID : list Z;
  bd_ProductName : list string;
  bd_Category : list string;
  bd_Price : list float;
  bd_Quantity : list Z;
  bd_CustomerID : list Z;
  bd_Region : list string
}.

Definition batch_keys : list string :=
  ["TransactionID"; "OrderDate"; "ProductID"; "ProductName"; "Category";
   "Price"; "Quantity"; "CustomerID"; "Region"]%string.

(** [pd.DataFrame(batch_data)] *)
Definition DataFrame (d : BatchData) : M Frame :=
  match zip_rows (bd_TransactionID d) (bd_OrderDate d) (bd_ProductID d)
          (bd_ProductName d) (bd_Category d) (bd_Price d) (bd_Quantity d)
          (bd_CustomerID d) (bd_Region d) with
  | Some rows => ret (mkFrame batch_keys rows)
  | None => raise ValueError
  end.

(** [pd.DataFrame(columns=columns)]: no rows. *)
Definition DataFrame_empty (columns : list string) : Frame :=
  mkFrame columns [].

Definition csv_lines (df : Frame) (header : bool) : list Line :=
  (if header then [HeaderLine (df_columns df)] else []) ++
  List.map DataLine (df_rows df).

(** [df.to_csv(path, mode=mode, header=header, index=False)]: mode ['w']
    replaces the file, mode ['a'] appends to it (creating it if absent). *)
Definition to_csv (df : Frame) (path : string) (mode : Mode) (header : bool)
    : M unit :=
  fun w =>
    let old := match mode with
               | ModeW => []
               | ModeA => default [] (fs w !! path)
               end in
    Ok (tt, mkWorld (rng w)
              (<[path := old ++ csv_lines df header]> (fs w))
              (trace w ++ [EvToCsv path mode header (Z.of_nat (length (df_rows df)))])).

(** [os.path.exists(path)] *)
Definition path_exists (path : string) : M bool :=
  fun w => Ok (bool_decide (is_Some (fs w !! path)), w).

(** ** [setup_and_demo.py] *)

Definition batch_size : Z := 100000.

Definition columns : list string :=
  ["TransactionID"; "OrderDate"; "ProductID"; "ProductName"; "Category";
   "Price"; "Quantity"; "CustomerID"; "Region"]%string.

Definition categories : list string :=
  ["Electronics"; "Clothing"; "Home & Garden"; "Sports"; "Books"; "Toys";
   "Health"; "Automotive"; "Food"; "Beauty"]%string.

Definition regions : list string :=
  ["North"; "South"; "East"; "West"; "Central"]%string.

Definition product_names : list string :=
  List.map (fun i => "Product_" +:+ pretty i) (Py.range 1 1001 1).

(** [total_days * 24]: the hours of "4 years worth of data". *)
Definition window_hours : Z := 365 * 4 * 24.

(** [batch_end] and [batch_rows] of the batch that starts at [batch_start]. *)
Definition batch_end_of (num_rows batch_start : Z) : Z :=
  Z.min (batch_start + batch_size) num_rows.

Definition batch_rows_of (num_rows batch_start : Z) : Z :=
  batch_end_of num_rows batch_start - batch_start.

(** [hours_per_batch] of that batch. *)
Definition hours_per_batch_of (num_rows batch_start : Z) : Z :=
  Z.max 1 (window_hours / batch_rows_of num_rows batch_start).

(** Its [TransactionID] and [OrderDate] columns. *)
Definition batch_ids (num_rows batch_start : Z) : list Z :=
  Py.range (batch_start + 1) (batch_end_of num_rows batch_start + 1) 1.

Definition batch_dates (num_rows batch_start : Z) : list Timestamp :=
  date_range date_2020_01_01 (batch_rows_of num_rows batch_start)
    (hours_per_batch_of num_rows batch_start).

(** The 4-year window that starts on 2020-01-01. *)
Definition in_window (t : Timestamp) : Prop :=
  date_2020_01_01 <= t < date_2020_01_01 + window_hours.

(** The body of the batch loop (one iteration). *)
Definition batch_body (filename : string) (num_rows batch_start : Z) : M unit :=
  let batch_end := Z.min (batch_start + batch_size) num_rows in
  let batch_rows := batch_end - batch_start in
  let total_days := 365 * 4 in
  q <- floordiv (total_days * 24) batch_rows ;;
  let hours_per_batch := Z.max 1 q in
  let c_TransactionID := Py.range (batch_start + 1) (batch_end + 1) 1 in
  let c_OrderDate := date_range date_2020_01_01 batch_rows hours_per_batch in
  c_ProductID <- draw (rs_randint 1000 9999 batch_rows) ;;
  c_ProductName <- draw (rs_choice product_names batch_rows) ;;
  c_Category <- draw (rs_choice categories batch_rows) ;;
  draws <- draw (rs_lognormal 3 1 batch_rows) ;;
  let c_Price := List.map (fun x => np_round x 2) draws in
  c_Quantity <- draw (rs_randint 1 10 batch_rows) ;;
  c_CustomerID <- draw (rs_randint 10000 99999 batch_rows) ;;
  c_Region <- draw (rs_choice regions batch_rows) ;;
  batch_df <- DataFrame (mkBatchData c_TransactionID c_OrderDate c_ProductID
                           c_ProductName c_Category c_Price c_Quantity
                           c_CustomerID c_Region) ;;
  to_csv batch_df filename ModeA false.

Definition create_large_sample_dataset (filename : string) (num_rows : Z)
    : M unit :=
  draw (fun s => (tt, rs_seed 42 s)) ;;
  to_csv (DataFrame_empty columns) filename ModeW true ;;
  for_each (Py.range 0 num_rows batch_size) (batch_body filename num_rows).

(** The events of the batch loop: one appending write per batch. *)
Definition batch_events (filename : string) (num_rows : Z) (starts : list Z)
    : list Event :=
  List.map (fun s => EvToCsv filename ModeA false (batch_rows_of num_rows s))
    starts.

(** Two worlds that a run cannot tell apart: the same generator state and
    the same content under the respective output paths. *)
Definition same_output (f1 f2 : string) (w1 w2 : World) : Prop :=
  rng w1 = rng w2 /\ fs w1 !! f1 = fs w2 !! f2.

(** How [server_process.wait()] ends: the server exits, or the user
    interrupts the wait ([KeyboardInterrupt], caught by the script), in
    which case the server may still be running. *)
Inductive WaitOutcome :=
| ServerExited
| Interrupted (server_running : bool).

(** [subprocess.Popen(argv)]: the handle is the event's trace position. *)
Definition popen (argv : list string) : M nat :=
  fun w => Ok (length (trace w),
               mkWorld (rng w) (fs w) (trace w ++ [EvPopen argv])).

(** The worker loop: start a worker, remember it, sleep a second. *)
Fixpoint start_workers (ids : list Z) (worker_processes : list nat)
    : M (list nat) :=
  match ids with
  | [] => ret worker_processes
  | _ :: ids' =>
      worker_process <- popen [sys_executable; "distributed_sales_system.py";
                               "worker"]%string ;;
      emit (EvSleep 1) ;;
      start_workers ids' (worker_processes ++ [worker_process])
  end.

(** The first block of the demo: the dataset to use; only when no path
    is given is the default one created if it is absent. *)
Definition ensure_dataset (csv_file : option string) : M string :=
  if Py.falsy csv_file then
    let csv_file := "sales_data_1m.csv"%string in
    present <- path_exists csv_file ;;
    (if negb present
     then create_large_sample_dataset csv_file 1000000
     else ret tt) ;;
    ret csv_file
  else ret (default ""%string csv_file).

Definition run_demo_with_multiple_workers (csv_file : option string)
    (num_workers : Z) (outcome : WaitOutcome) : M unit :=
  csv_file <- ensure_dataset csv_file ;;
  server_process <- popen [sys_executable; "distributed_sales_system.py";
                           "server"; csv_file]%string ;;
  emit (EvSleep 3) ;;
  worker_processes <- start_workers (Py.range 0 num_workers 1) [] ;;
  emit (EvWait server_process) ;;
  for_each worker_processes (fun p => emit (EvTerminate p)) ;;
  emit (EvPoll server_process) ;;
  match outcome with
  | Interrupted true => emit (EvTerminate server_process)
  | _ => ret tt
  end.

(** The process events of a demo run that starts when the trace has
    [base] events: the server, the workers one second apart, the wait,
    the clean-up. *)
Definition demo_events (csv_file : string) (num_workers : Z)
    (outcome : WaitOutcome) (base : nat) : list Event :=
  let ids := Py.range 0 num_workers 1 in
  [EvPopen [sys_executable; "distributed_sales_system.py"; "server"; csv_file]%string;
   EvSleep 3] ++
  flat_map (fun _ => [EvPopen [sys_executable; "distributed_sales_system.py";
                               "worker"]%string; EvSleep 1]) ids ++
  [EvWait base] ++
  List.map (fun i => EvTerminate (base + 2 + 2 * i)%nat) (seq 0 (length ids)) ++
  [EvPoll base] ++
  match outcome with
  | Interrupted true => [EvTerminate base]
  | _ => []
  end.

(** [main()], on [sys.argv]. The bodies of [check_requirements] and
    [create_batch_script] are single events. *)
Definition main (argv : list string) (outcome : WaitOutcome) : M unit :=
  if (length argv <? 2)%nat then ret tt
  else
    let command := Py.lower (nth 1 argv ""%string) in
    if decide (command = "create_small"%string) then
      create_large_sample_dataset "sales_data_1m.csv" 1000000
    else if decide (command = "create_large"%string) then
      create_large_sample_dataset "sales_data_5m.csv" 5000000
    else if decide (command = "demo"%string) then
      let csv_file := if (length argv <? 3)%nat
                      then "sales_data_1m.csv"%string
                      else nth 2 argv ""%string in
      run_demo_with_multiple_workers (Some csv_file) 3 outcome
    else if decide (command = "check"%string) then emit EvCheckRequirements
    else if decide (command = "scripts"%string) then emit EvCreateBatchScript
    else ret tt.

(** ** [test.py] *)

(** [pd.read_csv(path)]: the first line is the header, the others are
    data lines. *)
Definition read_csv (path : string) : M Frame :=
  fun w =>
    match fs w !! path with
    | None => Raise FileNotFoundError
    | Some (HeaderLine cols :: body) =>
        match mapM data_row body with
        | Some rows => Ok (mkFrame cols rows, w)
        | None => Raise ValueError
        end
    | Some _ => Raise ValueError
    end.

(** [data[['Price','Quantity']]]: the two columns, row by row. *)
Definition select_Price_Quantity (data : Frame) : M (list (float * Z)) :=
  if decide ("Price"%string ∈ df_columns data /\ "Quantity"%string ∈ df_columns data)
  then ret (List.map (fun r => (Price r, Quantity r)) (df_rows data))
  else raise KeyError.

(** An [int64] as a [float64] (round to nearest even). *)
Definition float_of_int64 (z : Z) : float :=
  if z =? - 2 ^ 63 then (-9223372036854775808)%float
  else if z <? 0 then PrimFloat.opp (PrimFloat.of_uint63 (Uint63.of_Z (- z)))
  else PrimFloat.of_uint63 (Uint63.of_Z z).

(** [a * b] on a [float64] and an [int64] column with the same index. *)
Definition series_mul (a : list float) (b : list Z) : list float :=
  zip_with (fun p q => PrimFloat.mul p (float_of_int64 q)) a b.

(** The built-in [sum] on a list of floats. It starts from the int [0],
    adds the first item to it, and continues in a float loop. Up to
    CPython 3.11 the loop adds the items one by one; from CPython 3.12 it
    also keeps a compensation term (Neumaier's variant of Kahan summation)
    and adds it to the total at the end. *)
Inductive SumAlgorithm := PlainSum | CompensatedSum.

(** One step of the compensated loop, on the running total and the
    compensation:
    [t = f_result + x;
     if (fabs(f_result) >= fabs(x)) c += (f_result - t) + x;
     else c += (x - t) + f_result;
     f_result = t]. *)
Definition cs_add (total : float * float) (x : float) : float * float :=
  let (f_result, c) := total in
  let t := PrimFloat.add f_result x in
  let c := if PrimFloat.leb (PrimFloat.abs x) (PrimFloat.abs f_result)
           then PrimFloat.add c (PrimFloat.add (PrimFloat.sub f_result t) x)
           else PrimFloat.add c (PrimFloat.add (PrimFloat.sub x t) f_result) in
  (t, c).

(** Its end: [if (c && isfinite(c)) f_result += c]. *)
Definition cs_to_double (total : float * float) : float :=
  let (f_result, c) := total in
  if negb (PrimFloat.eqb c 0%float) && PrimFloat.is_finite c
  then PrimFloat.add f_result c
  else f_result.

(** [sum(l)]; the int [0] of the empty sum is the float [0] here. *)
Definition py_sum (alg : SumAlgorithm) (l : list float) : float :=
  match l with
  | [] => 0%float
  | x :: rest =>
      let start := PrimFloat.add 0%float x in
      match alg with
      | PlainSum => fold_left PrimFloat.add rest start
      | CompensatedSum => cs_to_double (fold_left cs_add rest (start, 0%float))
      end
  end.

(** The script, run by an interpreter whose [sum] is [alg]: the value it
    prints last. *)
Definition test_script (alg : SumAlgorithm) : M float :=
  data <- read_csv "sales_data_5m.csv" ;;
  dat <- select_Price_Quantity data ;;
  let product := series_mul (List.map fst dat) (List.map snd dat) in
  let product_list := product in
  ret (py_sum alg product_list).

(** The total as the specification words it: the sum over the rows of
    [Price * Quantity]. *)
Definition spec_total_revenue (alg : SumAlgorithm) (rows : list Row) : float :=
  py_sum alg
    (List.map (fun r => PrimFloat.mul (Price r) (float_of_int64 (Quantity r)))
       rows).

End Scripts.

(** ** Test data *)

(** A world with no files, for the test generator. *)
Definition fresh_world : @World Z := mkWorld 0 ∅ [].

(** The three-row fixture: Price = [2.00, 3.50, 10.00], Quantity = [2, 1, 1]. *)
Definition fixture_rows : list Row :=
  [mkRow 1 date_2020_01_01 1000 "Product_1" "Books" 2%float 2 10000 "North";
   mkRow 2 (date_2020_01_01 + 1) 1001 "Product_2" "Toys" 3.5%float 1 10001 "South";
   mkRow 3 (date_2020_01_01 + 2) 1002 "Product_3" "Food" 10%float 1 10002 "East"].

Definition fixture_world : @World Z :=
  mkWorld 0
    (<["sales_data_5m.csv"%string := HeaderLine columns :: List.map DataLine fixture_rows]> ∅)
    [].

(** ** Notions used by the further properties *)

(** The row counts of the batches of a run, in order: the full batches,
    then the remainder if there is one. *)
Definition batch_sizes (num_rows : Z) : list Z :=
  List.repeat batch_size (Z.to_nat (num_rows / batch_size)) ++
  (if num_rows mod batch_size =? 0 then [] else [num_rows mod batch_size]).

(** A write to [path] by [to_csv]. *)
Definition writes_to (path : string) (e : Event) : Prop :=
  exists mode header nrows, e = EvToCsv path mode header nrows.

(** [choice] draws elements of the array it is given. *)
Definition choice_draws_from_pool {RandomState : Type} {np : Numpy RandomState}
    : Prop :=
  forall a size s, a <> [] -> Forall (fun x => In x a) (fst (rs_choice a size s)).

(** The three drawn labels of a row come from the script's pools. *)
Definition labels_from_pools (r : Row) : Prop :=
  In (ProductName r) product_names /\
  In (Category r) categories /\
  In (Region r) regions.

(** A property of the data lines of a file. *)
Definition line_ok (P : Row -> Prop) (l : Line) : Prop :=
  match l with
  | HeaderLine _ => True
  | DataLine r => P r
  end.

(** The subcommands [main] knows. *)
Definition known_commands : list string :=
  ["create_small"; "create_large"; "demo"; "check"; "scripts"]%string.

(** A string of ASCII characters (on which [Py.lower] is [str.lower]). *)
Definition ascii_only (s : string) : Prop :=
  Forall (fun c => (nat_of_ascii c < 128)%nat) (list_ascii_of_string s).

(** ** Prices: [np.round] on [float64] *)

(** [m / 2^n] rounded to the nearest integer, a tie to the even one. *)
Definition round_half_even (m n : positive) : Z :=
  let q := Z.shiftr (Zpos m) (Zpos n) in
  let r := Z.land (Zpos m) (Z.ones (Zpos n)) in
  let half := Z.shiftl 1 (Zpos n - 1) in
  match r ?= half with
  | Lt => q
  | Gt => q + 1
  | Eq => if Z.even q then q else q + 1
  end.

(** C's [rint] in the default rounding mode: a finite [y = ± m * 2^e] with
    [e < 0] goes to the nearest integer, a tie to the even one, and keeps
    its sign; every other value (an integer already, a zero, an infinity,
    NaN) is returned as it is. *)
Definition rint (y : float) : float :=
  match Prim2SF y with
  | S754_finite s m (Zneg n) =>
      let r := PrimFloat.of_uint63 (Uint63.of_Z (round_half_even m n)) in
      if s then PrimFloat.opp r else r
  | _ => y
  end.

(** [np.round(x, 2)] on a [float64]: numpy multiplies by [10**2], applies
    [rint] and divides by [10**2]. *)
Definition np_round2 (x : float) : float :=
  PrimFloat.div (rint (PrimFloat.mul x 100%float)) 100%float.

(** numpy's [round] with two decimals is that function. *)
Definition np_round_rints {RandomState : Type} {np : Numpy RandomState}
    : Prop :=
  forall x, np_round x 2 = np_round2 x.

(** [lognormal] draws positive numbers. *)
Definition lognormal_positive {RandomState : Type} {np : Numpy RandomState}
    : Prop :=
  forall mean sigma size s,
    Forall (fun x => PrimFloat.ltb 0%float x = true)
      (fst (rs_lognormal mean sigma size s)).

(** A price of the generated file: [np.round(x, 2)] of a positive draw
    [x], and not below zero. *)
Definition rounded_price (p : float) : Prop :=
  (exists x, PrimFloat.ltb 0%float x = true /\ p = np_round2 x) /\
  PrimFloat.leb 0%float p = true.

(** A binary64 that is a zero, or positive (finite or infinite). *)
Definition SF_nonneg (f : spec_float) : Prop :=
  match f with
  | S754_nan => False
  | S754_zero _ => True
  | S754_infinity s | S754_finite s _ _ => s = false
  end.

(** A second test generator: the stream of [TestRandom], with log-normal
    draws taken from a short table of positive numbers, two of them not
    above half a cent, and with numpy's [round]. *)
Module TestPrices.

Definition table : list float :=
  [20.09; 0.004; 7.389; 54.6; 161.534; 2.675; 1.005; 0.005]%float.

Definition lognormal (mean sigma size s : Z) : list float * Z :=
  let (l, s') := TestRandom.stream (Z.to_nat size) s in
  (List.map (fun x => nth (Z.to_nat (x mod 8)) table 1%float) l, s').

Definition numpy : Numpy Z := {|
  rs_seed := fun z _ => z mod 2 ^ 31;
  rs_randint := TestRandom.randint;
  rs_choice := TestRandom.choice;
  rs_lognormal := lognormal;
  np_round := fun x _ => np_round2 x
|}.

End TestPrices.

(** ** [check_requirements] and the loading of the script *)

Definition newline : string := String (ascii_of_nat 10) EmptyString.

(** The loop of [check_requirements]: [importable] tells whether
    [__import__(package)] succeeds; each [print] adds one entry to
    [printed]. *)
Fixpoint check_packages (importable : string -> bool) (packages : list string)
    (printed missing_packages : list string) : list string * list string :=
  match packages with
  | [] => (printed, missing_packages)
  | package :: packages' =>
      if importable package
      then check_packages importable packages'
             (printed ++ ["✓ " +:+ package +:+ " is installed"]%string)
             missing_packages
      else check_packages importable packages'
             (printed ++ ["✗ " +:+ package +:+ " is missing"]%string)
             (missing_packages ++ [package])
  end.

(** [check_requirements()]: what it prints and what it returns. *)
Definition check_requirements (importable : string -> bool) : list string * bool :=
  let required_packages := ["pandas"; "numpy"]%string in
  let (printed, missing_packages) :=
    check_packages importable required_packages [] [] in
  match missing_packages with
  | _ :: _ =>
      (printed ++ [newline +:+ "Install missing packages with:";
                   "pip install " +:+ String.concat " " missing_packages]%string,
       false)
  | [] =>
      (printed ++ [newline +:+ "✓ All required packages are installed"]%string,
       true)
  end.

(** The third-party modules that [setup_and_demo.py] imports when it is
    loaded ([import pandas as pd], [import numpy as np]). *)
Definition module_imports : list string := ["pandas"; "numpy"]%string.

(** A run of the script: it has to load before anything of it runs. *)
Inductive ScriptRun (A : Type) :=
| ImportFailed
| Ran (a : A).
Arguments ImportFailed {A}.
Arguments Ran {A} a.

(** [python setup_and_demo.py check] *)
Definition run_check (importable : string -> bool) : ScriptRun (list string * bool) :=
  if forallb importable module_imports
  then Ran (check_requirements importable)
  else ImportFailed.

(** A world in which the default dataset exists. *)
Definition world_with_default : @World Z :=
  mkWorld 0 (<["sales_data_1m.csv"%string := [HeaderLine columns]]> ∅) [].

(** * Properties *)

(** ** Ranges and batches *)

Example range_batches : Py.range 0 250000 100000 = [0; 100000; 200000].
Proof. reflexivity. Qed.

Example range_empty : Py.range 0 0 100000 = [].
Proof. reflexivity. Qed.

Example lower_demo : Py.lower "DeMo" = "demo"%string.
Proof. reflexivity. Qed.

Lemma range_length start stop step :
  length (Py.range start stop step) = Py.range_len start stop step.
Proof. unfold Py.range. now rewrite List.length_map, List.length_seq. Qed.

(** A unit-step range counts up from its start. *)
Lemma range_unit lo hi :
  Py.range lo hi 1 =
  List.map (fun i => lo + Z.of_nat i) (seq 0 (Z.to_nat (hi - lo))).
Proof.
  unfold Py.range, Py.range_len.
  destruct (Z.ltb_spec lo hi) as [Hlt | Hge].
  - rewrite Z.div_1_r. replace (hi - lo - 1 + 1) with (hi - lo) by lia.
    apply List.map_ext. intros i. lia.
  - replace (Z.to_nat (hi - lo)) with 0%nat by lia. reflexivity.
Qed.

Lemma range_unit_length lo hi :
  length (Py.range lo hi 1) = Z.to_nat (hi - lo).
Proof. rewrite range_unit. now rewrite List.length_map, List.length_seq. Qed.

Lemma map_seq_from {A} (f : nat -> A) (a n : nat) :
  List.map f (seq a n) = List.map (fun i => f (a + i)%nat) (seq 0 n).
Proof.
  rewrite <- (Nat.add_0_r a) at 1. generalize 0%nat as b.
  induction n as [| n IH]; intros b; [reflexivity |].
  cbn [seq List.map]. f_equal.
  rewrite <- IH. f_equal. f_equal. lia.
Qed.

(** Two adjacent unit-step ranges make one. *)
Lemma range_unit_app lo mid hi :
  lo <= mid -> mid <= hi ->
  Py.range lo mid 1 ++ Py.range mid hi 1 = Py.range lo hi 1.
Proof.
  intros H1 H2. rewrite !range_unit.
  replace (Z.to_nat (hi - lo)) with (Z.to_nat (mid - lo) + Z.to_nat (hi - mid))%nat by lia.
  rewrite List.seq_app, List.map_app, (map_seq_from _ (0 + _)).
  apply (f_equal (app _)), List.map_ext. intros i. lia.
Qed.

(** The unit-step range from 1 is the sequence 1..n. *)
Lemma range_from_one (n : Z) :
  Py.range 1 (n + 1) 1 = List.map Z.of_nat (seq 1 (Z.to_nat n)).
Proof.
  rewrite range_unit, (map_seq_from Z.of_nat).
  replace (n + 1 - 1) with n by lia.
  apply List.map_ext. intros i. lia.
Qed.

(** The batch starts are the multiples of the batch size below [num_rows]. *)
Lemma batch_starts_bounds num_rows :
  Forall (fun s => 0 <= s < num_rows) (Py.range 0 num_rows batch_size).
Proof.
  unfold Py.range, Py.range_len, batch_size.
  destruct (Z.ltb_spec 0 num_rows) as [Hpos | Hneg]; [| constructor].
  apply List.Forall_forall. intros s Hin.
  apply List.in_map_iff in Hin as (i & <- & Hi).
  apply List.in_seq in Hi.
  assert (Z.of_nat i <= (num_rows - 0 - 1) / 100000) by lia.
  assert (100000 * ((num_rows - 0 - 1) / 100000) <= num_rows - 0 - 1)
    by (apply Z.mul_div_le; lia).
  lia.
Qed.

Lemma flat_map_snoc {A B} (f : A -> list B) (l : list A) (x : A) :
  flat_map f (l ++ [x]) = flat_map f l ++ f x.
Proof. rewrite List.flat_map_app. cbn. now rewrite List.app_nil_r. Qed.

Lemma batch_ids_prefix num_rows (j : nat) :
  (j <= Py.range_len 0 num_rows batch_size)%nat ->
  flat_map (batch_ids num_rows)
    (List.map (fun i => 0 + Z.of_nat i * batch_size) (seq 0 j)) =
  Py.range 1 (Z.min (Z.of_nat j * batch_size) num_rows + 1) 1.
Proof.
  unfold Py.range_len, batch_size.
  induction j as [| j IH]; intros Hj.
  - cbn [seq List.map flat_map]. rewrite range_unit.
    replace (Z.to_nat _) with 0%nat by lia. reflexivity.
  - destruct (Z.ltb_spec 0 num_rows) as [Hpos | Hneg]; [| lia].
    assert (100000 * ((num_rows - 0 - 1) / 100000) <= num_rows - 0 - 1)
      by (apply Z.mul_div_le; lia).
    rewrite List.seq_S, List.map_app. cbn [List.map].
    rewrite flat_map_snoc, IH by lia.
    unfold batch_ids, batch_end_of, batch_size.
    replace (Z.min (Z.of_nat j * 100000) num_rows) with (Z.of_nat j * 100000) by lia.
    replace (Z.min (Z.of_nat (S j) * 100000) num_rows)
      with (Z.min (0 + Z.of_nat j * 100000 + 100000) num_rows) by lia.
    rewrite Z.add_0_l. apply range_unit_app; lia.
Qed.

(** The per-batch identifier ranges, in order, make up 1..[num_rows]. *)
Lemma batch_ids_concat num_rows :
  flat_map (batch_ids num_rows) (Py.range 0 num_rows batch_size) =
  List.map Z.of_nat (seq 1 (Z.to_nat num_rows)).
Proof.
  unfold Py.range. rewrite batch_ids_prefix by lia.
  rewrite <- range_from_one. f_equal. f_equal.
  unfold Py.range_len, batch_size.
  destruct (Z.ltb_spec 0 num_rows) as [Hpos | Hneg]; [| lia].
  pose proof (Z.mod_pos_bound (num_rows - 0 - 1) 100000 ltac:(lia)).
  pose proof (Z.div_mod (num_rows - 0 - 1) 100000 ltac:(lia)).
  lia.
Qed.

(** ** Data frames and files *)

(** Columns of equal length zip into rows, and each column can be read
    back from the rows. *)
Lemma zip_rows_columns (n : nat) c1 c2 c3 c4 c5 c6 c7 c8 c9 :
  length c1 = n -> length c2 = n -> length c3 = n -> length c4 = n ->
  length c5 = n -> length c6 = n -> length c7 = n -> length c8 = n ->
  length c9 = n ->
  exists rows,
    zip_rows c1 c2 c3 c4 c5 c6 c7 c8 c9 = Some rows /\
    length rows = n /\
    List.map TransactionID rows = c1 /\
    List.map OrderDate rows = c2 /\
    List.map ProductID rows = c3 /\
    List.map Quantity rows = c7 /\
    List.map CustomerID rows = c8.
Proof.
  revert c1 c2 c3 c4 c5 c6 c7 c8 c9.
  induction n as [| n IH]; intros c1 c2 c3 c4 c5 c6 c7 c8 c9
    H1 H2 H3 H4 H5 H6 H7 H8 H9.
  - destruct c1; [| discriminate H1]. destruct c2; [| discriminate H2].
    destruct c3; [| discriminate H3]. destruct c4; [| discriminate H4].
    destruct c5; [| discriminate H5]. destruct c6; [| discriminate H6].
    destruct c7; [| discriminate H7]. destruct c8; [| discriminate H8].
    destruct c9; [| discriminate H9].
    exists []. repeat split; reflexivity.
  - destruct c1; [discriminate H1 |]. destruct c2; [discriminate H2 |].
    destruct c3; [discriminate H3 |]. destruct c4; [discriminate H4 |].
    destruct c5; [discriminate H5 |]. destruct c6; [discriminate H6 |].
    destruct c7; [discriminate H7 |]. destruct c8; [discriminate H8 |].
    destruct c9; [discriminate H9 |].
    cbn [length] in *.
    destruct (IH c1 c2 c3 c4 c5 c6 c7 c8 c9) as (rows & Hz & Hl & E1 & E2 & E3 & E7 & E8);
      try congruence.
    eexists. cbn [zip_rows]. rewrite Hz. cbn [option_map].
    split; [reflexivity |]. cbn [length List.map TransactionID OrderDate ProductID
                                  Quantity CustomerID].
    repeat split; congruence.
Qed.

Lemma data_rows_of_lines hdr (rows : list Row) :
  data_rows (HeaderLine hdr :: List.map DataLine rows) = rows.
Proof.
  unfold data_rows. cbn. induction rows as [| r rows IH]; cbn; congruence.
Qed.

Lemma Forall_of_columns (rows : list Row) :
  Forall (fun x => 1000 <= x < 9999) (List.map ProductID rows) ->
  Forall (fun x => 1 <= x < 10) (List.map Quantity rows) ->
  Forall (fun x => 10000 <= x < 99999) (List.map CustomerID rows) ->
  Forall random_fields_ok rows.
Proof.
  rewrite !List.Forall_map, !List.Forall_forall. intros Hp Hq Hc r Hr.
  specialize (Hp r Hr). specialize (Hq r Hr). specialize (Hc r Hr).
  unfold random_fields_ok. lia.
Qed.

Lemma product_names_length : length product_names = 1000%nat.
Proof.
  unfold product_names. rewrite List.length_map, range_length. reflexivity.
Qed.

(** ** Sorted columns *)

Lemma map_seq_strictly_sorted (f : nat -> Z) :
  (forall i j, (i < j)%nat -> f i < f j) ->
  forall a n, StronglySorted Z.lt (List.map f (seq a n)).
Proof.
  intros Hf a n. revert a.
  induction n as [| n IH]; intros a; cbn [seq List.map]; constructor.
  - apply IH.
  - apply List.Forall_forall. intros x Hx.
    apply List.in_map_iff in Hx as (i & <- & Hi). apply List.in_seq in Hi.
    apply Hf. lia.
Qed.

Lemma count_strictly_sorted (a n : nat) :
  StronglySorted Z.lt (List.map Z.of_nat (seq a n)).
Proof. apply map_seq_strictly_sorted. intros i j Hij. lia. Qed.

Lemma strictly_sorted_nondecreasing (l : list Z) :
  StronglySorted Z.lt l -> Sorted Z.le l.
Proof.
  intros H. apply StronglySorted_Sorted.
  induction H as [| x l _ IH Hx]; constructor; [exact IH |].
  eapply List.Forall_impl; [| exact Hx]. intros y. cbn beta. lia.
Qed.

(** ** Order dates of a batch *)

Lemma date_range_sorted start periods hours :
  1 <= hours -> StronglySorted Z.lt (date_range start periods hours).
Proof.
  intros Hh. apply map_seq_strictly_sorted. intros i j Hij. nia.
Qed.

Lemma date_range_nth start periods hours (i : Z) :
  0 <= i < periods ->
  nth (Z.to_nat i) (date_range start periods hours) 0 = start + i * hours.
Proof.
  intros Hi. unfold date_range.
  set (f := fun k : nat => start + Z.of_nat k * hours).
  rewrite (List.nth_indep _ 0 (f 0%nat))
    by (rewrite List.length_map, List.length_seq; lia).
  rewrite (List.map_nth f), List.seq_nth by lia. unfold f.
  rewrite Nat.add_0_l, Z2Nat.id by lia. reflexivity.
Qed.

Lemma date_range_head start periods hours :
  0 < periods -> hd_error (date_range start periods hours) = Some start.
Proof.
  intros Hp. unfold date_range.
  destruct (Z.to_nat periods) as [| k] eqn:E; [lia |].
  cbn. f_equal. lia.
Qed.

Lemma batch_rows_bounds num_rows s :
  In s (Py.range 0 num_rows batch_size) ->
  0 < batch_rows_of num_rows s <= batch_size.
Proof.
  intros Hin.
  pose proof (proj1 (List.Forall_forall _ _) (batch_starts_bounds num_rows) s Hin)
    as Hs.
  cbn beta in Hs. unfold batch_rows_of, batch_end_of, batch_size. lia.
Qed.

(** The dates of a batch stay inside the window exactly when the batch has
    no more rows than the window has hours. *)
Lemma batch_dates_in_window num_rows s :
  0 < batch_rows_of num_rows s ->
  Forall in_window (batch_dates num_rows s) <->
  batch_rows_of num_rows s <= window_hours.
Proof.
  unfold batch_dates, hours_per_batch_of, in_window.
  set (n := batch_rows_of num_rows s). unfold window_hours.
  intros Hn. split.
  - intros Hall. destruct (Z_le_gt_dec n (365 * 4 * 24)) as [Hle | Hgt]; [exact Hle |].
    exfalso. rewrite List.Forall_forall in Hall.
    specialize (Hall (date_2020_01_01 + (n - 1) * Z.max 1 (365 * 4 * 24 / n))).
    rewrite Z.div_small, Z.max_l in Hall by lia.
    enough (date_2020_01_01 <= date_2020_01_01 + (n - 1) * 1
            < date_2020_01_01 + 365 * 4 * 24) by lia.
    apply Hall. unfold date_range. apply List.in_map_iff.
    exists (Z.to_nat (n - 1)). split; [lia |]. apply List.in_seq. lia.
  - intros Hle. apply List.Forall_forall. intros t Ht.
    unfold date_range in Ht. apply List.in_map_iff in Ht as (i & <- & Hi).
    apply List.in_seq in Hi.
    assert (1 <= 365 * 4 * 24 / n) by (apply Z.div_le_lower_bound; lia).
    assert (n * (365 * 4 * 24 / n) <= 365 * 4 * 24) by (apply Z.mul_div_le; lia).
    rewrite Z.max_r by lia. nia.
Qed.

(** With more than one batch, the first batch runs hour by hour for
    100,000 rows and the second starts on 2020-01-01 again. *)
Lemma dates_of_two_batches num_rows :
  batch_size < num_rows ->
  exists rest,
    flat_map (batch_dates num_rows) (Py.range 0 num_rows batch_size) =
    date_range date_2020_01_01 100000 1 ++ date_2020_01_01 :: rest.
Proof.
  intros Hgt. unfold batch_size in Hgt.
  assert (Hstarts : exists rest, Py.range 0 num_rows batch_size = 0 :: 100000 :: rest).
  { unfold Py.range, Py.range_len, batch_size.
    destruct (Z.ltb_spec 0 num_rows); [| lia].
    assert (1 <= (num_rows - 0 - 1) / 100000) by (apply Z.div_le_lower_bound; lia).
    destruct (Z.to_nat ((num_rows - 0 - 1) / 100000 + 1)) as [| [| k]] eqn:E; [lia | lia |].
    cbn [seq List.map]. eexists. reflexivity. }
  destruct Hstarts as (rest & E). rewrite E. cbn [flat_map].
  assert (H1 : batch_dates num_rows 0 = date_range date_2020_01_01 100000 1).
  { unfold batch_dates, hours_per_batch_of, batch_rows_of, batch_end_of,
      batch_size, window_hours.
    rewrite Z.min_l by lia. replace (0 + 100000 - 0) with 100000 by lia.
    reflexivity. }
  assert (H2 : exists tl, batch_dates num_rows 100000 = date_2020_01_01 :: tl).
  { pose proof (date_range_head date_2020_01_01 (batch_rows_of num_rows 100000)
                  (hours_per_batch_of num_rows 100000)) as Hh.
    specialize (Hh ltac:(unfold batch_rows_of, batch_end_of, batch_size; lia)).
    unfold batch_dates.
    destruct (date_range date_2020_01_01 (batch_rows_of num_rows 100000)
                (hours_per_batch_of num_rows 100000)) as [| t tl].
    - discriminate Hh.
    - injection Hh as ->. exists tl. reflexivity. }
  destruct H2 as (tl & E2). rewrite H1, E2.
  eexists. cbn [app]. reflexivity.
Qed.

(** Over the whole file the dates are in order exactly when there is a
    single batch: every batch starts again on 2020-01-01. *)
Lemma order_dates_sorted_iff num_rows :
  Sorted Z.le (flat_map (batch_dates num_rows) (Py.range 0 num_rows batch_size)) <->
  num_rows <= batch_size.
Proof.
  split.
  - intros Hsorted. destruct (Z_le_gt_dec num_rows batch_size) as [Hle | Hgt]; [exact Hle |].
    exfalso. destruct (dates_of_two_batches num_rows ltac:(lia)) as (rest & E).
    rewrite E in Hsorted.
    apply Sorted_StronglySorted in Hsorted; [| intros x y z; apply Z.le_trans].
    assert (H1 : In (date_2020_01_01 + 99999) (date_range date_2020_01_01 100000 1)).
    { unfold date_range. apply List.in_map_iff.
      exists (Z.to_nat 99999). split; [lia | apply List.in_seq; lia]. }
    pose proof (StronglySorted_app_1_elem_of Z.le _ _
                  (date_2020_01_01 + 99999) date_2020_01_01 Hsorted) as Hle.
    rewrite !list_elem_of_In in Hle.
    specialize (Hle H1 ltac:(left; reflexivity)). lia.
  - intros Hle. apply strictly_sorted_nondecreasing.
    unfold Py.range, Py.range_len, batch_size in *.
    destruct (Z.ltb_spec 0 num_rows); [| constructor].
    replace (Z.to_nat ((num_rows - 0 - 1) / 100000 + 1)) with 1%nat
      by (rewrite Z.div_small by lia; reflexivity).
    cbn [seq List.map flat_map]. rewrite List.app_nil_r.
    apply date_range_sorted. unfold hours_per_batch_of. lia.
Qed.

(** The rows on either side of the first batch boundary. *)
Lemma dates_at_first_boundary num_rows :
  batch_size < num_rows ->
  nth (Z.to_nat 99999)
    (flat_map (batch_dates num_rows) (Py.range 0 num_rows batch_size)) 0 =
    date_2020_01_01 + 99999 /\
  nth (Z.to_nat 100000)
    (flat_map (batch_dates num_rows) (Py.range 0 num_rows batch_size)) 0 =
    date_2020_01_01.
Proof.
  intros Hgt. destruct (dates_of_two_batches num_rows Hgt) as (rest & ->).
  assert (Hlen : length (date_range date_2020_01_01 100000 1) = Z.to_nat 100000)
    by (unfold date_range; now rewrite List.length_map, List.length_seq).
  split.
  - rewrite List.app_nth1 by lia. rewrite date_range_nth by lia. lia.
  - rewrite List.app_nth2 by lia. rewrite Hlen, Nat.sub_diag. reflexivity.
Qed.

(** A single full batch: its last row is dated 99,999 hours after the start. *)
Lemma last_date_of_full_batch :
  Py.range 0 100000 batch_size = [0] /\
  hours_per_batch_of 100000 0 = 1 /\
  nth (Z.to_nat 99999)
    (flat_map (batch_dates 100000) (Py.range 0 100000 batch_size)) 0 =
    date_2020_01_01 + 99999.
Proof.
  assert (E : Py.range 0 100000 batch_size = [0]) by reflexivity.
  split; [exact E |]. split; [reflexivity |].
  rewrite E. cbn [flat_map]. rewrite List.app_nil_r.
  change (batch_dates 100000 0) with (date_range date_2020_01_01 100000 1).
  rewrite date_range_nth by lia. lia.
Qed.

(** ** The dataset generator *)

(** C10: called with a row count of 0 the generator returns normally and
    leaves a file that holds the header row, with the 9 column names, and
    no data row. *)
Theorem zero_rows_header_only {RandomState} {np : Numpy RandomState}
    filename (w : World) :
  exists w',
    create_large_sample_dataset filename 0 w = Ok (tt, w') /\
    fs w' !! filename = Some [HeaderLine columns] /\
    data_rows [HeaderLine columns] = [] /\
    columns = ["TransactionID"; "OrderDate"; "ProductID"; "ProductName";
               "Category"; "Price"; "Quantity"; "CustomerID"; "Region"]%string /\
    length columns = 9%nat.
Proof.
  eexists. split; [reflexivity |]. cbn [fs].
  split; [apply lookup_insert_eq |]. repeat split.
Qed.

Section GeneratorFacts.

Context {RandomState : Type} {np : Numpy RandomState}.

(** The contract of the numpy calls: an array of [size] elements comes
    back, and seeding forgets the previous state. *)
Hypothesis randint_length : forall low high size s,
  0 <= size -> length (fst (rs_randint low high size s)) = Z.to_nat size.
Hypothesis choice_length : forall a size s,
  a <> [] -> 0 <= size -> length (fst (rs_choice a size s)) = Z.to_nat size.
Hypothesis lognormal_length : forall mean sigma size s,
  0 <= size -> length (fst (rs_lognormal mean sigma size s)) = Z.to_nat size.
Hypothesis seed_resets : forall z s1 s2, rs_seed z s1 = rs_seed z s2.

(** One batch: it appends its rows to the file and never raises. *)
Lemma batch_body_spec filename num_rows batch_start (w : World) :
  0 <= batch_start < num_rows ->
  exists rows r',
    batch_body filename num_rows batch_start w =
      Ok (tt, mkWorld r'
                (<[filename := default [] (fs w !! filename) ++ List.map DataLine rows]> (fs w))
                (trace w ++ [EvToCsv filename ModeA false
                               (batch_rows_of num_rows batch_start)])) /\
    List.map TransactionID rows = batch_ids num_rows batch_start /\
    List.map OrderDate rows = batch_dates num_rows batch_start /\
    (randint_half_open -> Forall random_fields_ok rows).
Proof.
  intros Hs.
  assert (Hrows : 0 < batch_rows_of num_rows batch_start)
    by (unfold batch_rows_of, batch_end_of, batch_size; lia).
  unfold batch_body, bind, floordiv.
  fold (batch_end_of num_rows batch_start).
  fold (batch_rows_of num_rows batch_start).
  set (n := batch_rows_of num_rows batch_start) in *.
  destruct (Z.eqb_spec n 0) as [-> | _]; [lia |].
  unfold ret, draw. cbn [rng fs trace].
  pose proof (randint_length 1000 9999 n (rng w) ltac:(lia)) as L3.
  destruct (rs_randint 1000 9999 n (rng w)) as [c3 s3] eqn:D3. cbn [fst rng fs trace] in *.
  pose proof (choice_length product_names n s3) as L4.
  destruct (rs_choice product_names n s3) as [c4 s4]. cbn [fst rng fs trace] in *.
  pose proof (choice_length categories n s4 ltac:(discriminate) ltac:(lia)) as L5.
  destruct (rs_choice categories n s4) as [c5 s5]. cbn [fst rng fs trace] in *.
  pose proof (lognormal_length 3 1 n s5 ltac:(lia)) as L6.
  destruct (rs_lognormal 3 1 n s5) as [c6 s6]. cbn [fst rng fs trace] in *.
  pose proof (randint_length 1 10 n s6 ltac:(lia)) as L7.
  destruct (rs_randint 1 10 n s6) as [c7 s7] eqn:D7. cbn [fst rng fs trace] in *.
  pose proof (randint_length 10000 99999 n s7 ltac:(lia)) as L8.
  destruct (rs_randint 10000 99999 n s7) as [c8 s8] eqn:D8. cbn [fst rng fs trace] in *.
  pose proof (choice_length regions n s8 ltac:(discriminate) ltac:(lia)) as L9.
  destruct (rs_choice regions n s8) as [c9 s9]. cbn [fst rng fs trace] in *.
  assert (L4' : length c4 = Z.to_nat n).
  { apply L4; [| lia]. intros E. pose proof product_names_length as P.
    rewrite E in P. discriminate P. }
  destruct (zip_rows_columns (Z.to_nat n)
              (Py.range (batch_start + 1) (batch_end_of num_rows batch_start + 1) 1)
              (date_range date_2020_01_01 n (Z.max 1 (365 * 4 * 24 / n)))
              c3 c4 c5 (List.map (fun x => np_round x 2) c6) c7 c8 c9)
    as (rows & Hz & Hl & E1 & E2 & E3 & E7 & E8); trivial.
  { rewrite range_unit_length. subst n. unfold batch_rows_of. f_equal. lia. }
  { unfold date_range. now rewrite List.length_map, List.length_seq. }
  { now rewrite List.length_map. }
  exists rows, s9. unfold DataFrame. cbn [bd_TransactionID bd_OrderDate bd_ProductID
    bd_ProductName bd_Category bd_Price bd_Quantity bd_CustomerID bd_Region].
  rewrite Hz. unfold ret, to_csv, csv_lines. cbn [rng fs trace df_rows app].
  rewrite Hl, Z2Nat.id by lia. split; [reflexivity |].
  split; [exact E1 |]. split; [exact E2 |].
  intros R. apply Forall_of_columns.
  - rewrite E3. change c3 with (fst (c3, s3)). rewrite <- D3. apply R. lia.
  - rewrite E7. change c7 with (fst (c7, s7)). rewrite <- D7. apply R. lia.
  - rewrite E8. change c8 with (fst (c8, s8)). rewrite <- D8. apply R. lia.
Qed.

(** The batch loop, from a world in which the file holds [old]. *)
Lemma batch_loop_spec filename num_rows (starts : list Z) :
  Forall (fun s => 0 <= s < num_rows) starts ->
  forall (w : World) old, fs w !! filename = Some old ->
  exists rows r',
    for_each starts (batch_body filename num_rows) w =
      Ok (tt, mkWorld r'
                (<[filename := old ++ List.map DataLine rows]> (fs w))
                (trace w ++ batch_events filename num_rows starts)) /\
    List.map TransactionID rows = flat_map (batch_ids num_rows) starts /\
    List.map OrderDate rows = flat_map (batch_dates num_rows) starts /\
    (randint_half_open -> Forall random_fields_ok rows).
Proof.
  induction 1 as [| s starts Hs _ IH]; intros w old Hold.
  - exists [], (rng w). cbn. unfold ret.
    rewrite !List.app_nil_r, insert_id by exact Hold.
    destruct w; repeat split; intros; constructor.
  - destruct (batch_body_spec filename num_rows s w Hs)
      as (rows1 & r1 & Hrun1 & Hid1 & Hdt1 & Hok1).
    rewrite Hold in Hrun1. cbn [default] in Hrun1.
    match type of Hrun1 with _ = Ok (tt, ?w1) =>
      destruct (IH w1 (old ++ List.map DataLine rows1))
        as (rows2 & r2 & Hrun2 & Hid2 & Hdt2 & Hok2)
    end.
    { cbn [fs]. apply lookup_insert_eq. }
    exists (rows1 ++ rows2), r2. cbn [for_each]. unfold bind at 1.
    rewrite Hrun1, Hrun2. cbn [fs trace rng].
    rewrite insert_insert_eq, List.map_app, <- !List.app_assoc.
    split; [reflexivity |].
    rewrite !List.map_app. cbn [flat_map].
    repeat split; try congruence. intros R. apply Forall_app; split; auto.
Qed.

(** The generator returns normally for every row count, and this is the
    world it leaves. *)
Lemma create_spec filename num_rows (w : World) :
  exists rows r',
    create_large_sample_dataset filename num_rows w =
      Ok (tt, mkWorld r'
                (<[filename := HeaderLine columns :: List.map DataLine rows]> (fs w))
                (trace w ++ EvToCsv filename ModeW true 0 ::
                   batch_events filename num_rows (Py.range 0 num_rows batch_size))) /\
    List.map TransactionID rows = List.map Z.of_nat (seq 1 (Z.to_nat num_rows)) /\
    List.map OrderDate rows =
      flat_map (batch_dates num_rows) (Py.range 0 num_rows batch_size) /\
    (randint_half_open -> Forall random_fields_ok rows).
Proof.
  unfold create_large_sample_dataset, bind at 1, draw.
  unfold bind at 1, to_csv. cbn [rng fs trace DataFrame_empty df_rows csv_lines
    df_columns List.map length app].
  match goal with |- context [for_each _ _ ?w1] =>
    destruct (batch_loop_spec filename num_rows _ (batch_starts_bounds num_rows)
                w1 [HeaderLine columns])
      as (rows & r' & Hrun & Hid & Hdt & Hok)
  end.
  { cbn [fs]. apply lookup_insert_eq. }
  exists rows, r'. rewrite Hrun. cbn [fs trace rng].
  rewrite insert_insert_eq, <- List.app_assoc. cbn [app].
  split; [reflexivity |].
  rewrite <- batch_ids_concat. auto.
Qed.

(** The same, read off the file the generator leaves behind. *)
Lemma create_file filename num_rows (w : World) :
  exists w' rows,
    create_large_sample_dataset filename num_rows w = Ok (tt, w') /\
    fs w' !! filename = Some (HeaderLine columns :: List.map DataLine rows) /\
    trace w' = trace w ++ EvToCsv filename ModeW true 0 ::
                 batch_events filename num_rows (Py.range 0 num_rows batch_size) /\
    List.map TransactionID rows = List.map Z.of_nat (seq 1 (Z.to_nat num_rows)) /\
    List.map OrderDate rows =
      flat_map (batch_dates num_rows) (Py.range 0 num_rows batch_size) /\
    (randint_half_open -> Forall random_fields_ok rows).
Proof.
  destruct (create_spec filename num_rows w) as (rows & r' & Hrun & H).
  eexists _, rows. split; [exact Hrun |]. cbn [fs trace].
  split; [apply lookup_insert_eq |]. split; [reflexivity | exact H].
Qed.

(** C2: for every requested row count N the TransactionID column of the
    generated file is exactly the sequence 1..N, strictly increasing, with
    no gap and no duplicate, whatever the batch boundaries. *)
Theorem transaction_ids_are_1_to_N filename num_rows (w : World) :
  exists w' file,
    create_large_sample_dataset filename num_rows w = Ok (tt, w') /\
    fs w' !! filename = Some file /\
    List.map TransactionID (data_rows file) =
      List.map Z.of_nat (seq 1 (Z.to_nat num_rows)) /\
    StronglySorted Z.lt (List.map TransactionID (data_rows file)).
Proof.
  destruct (create_file filename num_rows w)
    as (w' & rows & Hrun & Hfile & _ & Hid & _).
  exists w', (HeaderLine columns :: List.map DataLine rows).
  rewrite data_rows_of_lines, Hid.
  repeat split; trivial. apply count_strictly_sorted.
Qed.

(** C3: for every requested row count N the generated file has exactly N
    data rows after one header row; for N = 250,000 the generator writes
    three batches of 100,000, 100,000 and 50,000 rows and the file has
    250,001 lines. *)
Theorem generated_file_has_N_rows filename num_rows (w : World) :
  0 <= num_rows ->
  exists w' rows,
    create_large_sample_dataset filename num_rows w = Ok (tt, w') /\
    fs w' !! filename = Some (HeaderLine columns :: List.map DataLine rows) /\
    Z.of_nat (length rows) = num_rows /\
    Z.of_nat (length (HeaderLine columns :: List.map DataLine rows)) = num_rows + 1 /\
    (num_rows = 250000 ->
     trace w' = trace w ++ [EvToCsv filename ModeW true 0;
                            EvToCsv filename ModeA false 100000;
                            EvToCsv filename ModeA false 100000;
                            EvToCsv filename ModeA false 50000]).
Proof.
  intros Hn.
  destruct (create_file filename num_rows w)
    as (w' & rows & Hrun & Hfile & Htrace & Hid & _).
  exists w', rows.
  assert (Hlen : length rows = Z.to_nat num_rows).
  { rewrite <- (List.length_map TransactionID), Hid.
    now rewrite List.length_map, List.length_seq. }
  repeat split; trivial.
  - lia.
  - cbn [length]. rewrite List.length_map. lia.
  - intros ->. rewrite Htrace. reflexivity.
Qed.

Section RandomFields.

Hypothesis randint_range : randint_half_open.

(** C5: in every row of the generated file Quantity is in [1,9],
    ProductID in [1000,9998] and CustomerID in [10000,99998]. *)
Theorem random_fields_in_range filename num_rows (w : World) :
  exists w' file,
    create_large_sample_dataset filename num_rows w = Ok (tt, w') /\
    fs w' !! filename = Some file /\
    Forall (fun r => 1 <= Quantity r <= 9 /\
                     1000 <= ProductID r <= 9998 /\
                     10000 <= CustomerID r <= 99998) (data_rows file).
Proof.
  destruct (create_file filename num_rows w)
    as (w' & rows & Hrun & Hfile & _ & _ & _ & Hok).
  exists w', (HeaderLine columns :: List.map DataLine rows).
  rewrite data_rows_of_lines. repeat split; trivial.
  eapply List.Forall_impl; [| exact (Hok randint_range)].
  unfold random_fields_ok. intros r. cbn beta. lia.
Qed.

End RandomFields.

(** *** Determinism *)

(** A batch run from indistinguishable worlds ends the same way, in
    indistinguishable worlds. *)
Lemma batch_body_same_output f1 f2 num_rows batch_start (w1 w2 : World) :
  same_output f1 f2 w1 w2 ->
  match batch_body f1 num_rows batch_start w1,
        batch_body f2 num_rows batch_start w2 with
  | Ok (_, w1'), Ok (_, w2') => same_output f1 f2 w1' w2'
  | Raise e1, Raise e2 => e1 = e2
  | _, _ => False
  end.
Proof.
  intros [Hr Hf]. unfold batch_body, bind, floordiv.
  destruct (_ =? 0); [reflexivity |].
  unfold ret, draw. cbn [rng fs trace]. rewrite <- Hr.
  repeat match goal with
         | |- context [let (_, _) := ?d in _] => destruct d; cbn [rng fs trace]
         end.
  unfold DataFrame. destruct (zip_rows _ _ _ _ _ _ _ _ _); [| reflexivity].
  unfold ret, to_csv, same_output. cbn [rng fs trace].
  rewrite !lookup_insert_eq. split; [reflexivity |].
  apply (f_equal (fun old => Some (default [] old ++ _))). exact Hf.
Qed.

Lemma batch_loop_same_output f1 f2 num_rows (starts : list Z) :
  forall (w1 w2 w1' w2' : World),
    same_output f1 f2 w1 w2 ->
    for_each starts (batch_body f1 num_rows) w1 = Ok (tt, w1') ->
    for_each starts (batch_body f2 num_rows) w2 = Ok (tt, w2') ->
    same_output f1 f2 w1' w2'.
Proof.
  induction starts as [| s starts IH]; intros w1 w2 w1' w2' Hsim H1 H2.
  - cbn in H1, H2. unfold ret in H1, H2. congruence.
  - cbn [for_each] in H1, H2. unfold bind in H1, H2.
    pose proof (batch_body_same_output f1 f2 num_rows s w1 w2 Hsim) as Hstep.
    destruct (batch_body f1 num_rows s w1) as [[[] w1a] | e1]; [| discriminate].
    destruct (batch_body f2 num_rows s w2) as [[[] w2a] | e2]; [| discriminate].
    exact (IH _ _ _ _ Hstep H1 H2).
Qed.

Lemma create_same_output f1 f2 num_rows (w1 w2 w1' w2' : World) :
  create_large_sample_dataset f1 num_rows w1 = Ok (tt, w1') ->
  create_large_sample_dataset f2 num_rows w2 = Ok (tt, w2') ->
  fs w1' !! f1 = fs w2' !! f2.
Proof.
  unfold create_large_sample_dataset, bind, draw, to_csv.
  cbn [rng fs trace]. intros H1 H2.
  refine (proj2 (batch_loop_same_output f1 f2 num_rows _ _ _ _ _ _ H1 H2)).
  split; cbn [rng fs].
  - apply seed_resets.
  - now rewrite !lookup_insert_eq.
Qed.

(** C4: two independent runs of the generator with the same row count N
    leave identical files, whatever the generator state and the files
    they start from: the output is a function of N alone. *)
Theorem generation_is_deterministic num_rows f1 f2 (w1 w2 : World) :
  exists file w1' w2',
    create_large_sample_dataset f1 num_rows w1 = Ok (tt, w1') /\
    create_large_sample_dataset f2 num_rows w2 = Ok (tt, w2') /\
    fs w1' !! f1 = Some file /\
    fs w2' !! f2 = Some file.
Proof.
  destruct (create_file f1 num_rows w1) as (w1' & rows1 & Hrun1 & Hfile1 & _).
  destruct (create_file f2 num_rows w2) as (w2' & rows2 & Hrun2 & Hfile2 & _).
  exists (HeaderLine columns :: List.map DataLine rows1), w1', w2'.
  repeat split; trivial.
  rewrite <- (create_same_output f1 f2 num_rows w1 w2 w1' w2' Hrun1 Hrun2).
  exact Hfile1.
Qed.

(** *** Order dates *)

(** C1 (as the code has it): the OrderDate column is the concatenation of
    the batches' date runs; each run starts on 2020-01-01 and is strictly
    increasing; over the whole file the column is non-decreasing exactly
    when N <= 100,000, that is when there is a single batch. *)
Theorem order_dates_sorted_within_batches filename num_rows (w : World) :
  exists w' file,
    create_large_sample_dataset filename num_rows w = Ok (tt, w') /\
    fs w' !! filename = Some file /\
    List.map OrderDate (data_rows file) =
      flat_map (batch_dates num_rows) (Py.range 0 num_rows batch_size) /\
    (forall s, In s (Py.range 0 num_rows batch_size) ->
       StronglySorted Z.lt (batch_dates num_rows s) /\
       hd_error (batch_dates num_rows s) = Some date_2020_01_01) /\
    (Sorted Z.le (List.map OrderDate (data_rows file)) <->
     num_rows <= batch_size).
Proof.
  destruct (create_file filename num_rows w)
    as (w' & rows & Hrun & Hfile & _ & _ & Hdt & _).
  exists w', (HeaderLine columns :: List.map DataLine rows).
  rewrite data_rows_of_lines, Hdt.
  repeat split; trivial.
  - apply date_range_sorted. unfold hours_per_batch_of. lia.
  - apply date_range_head. now apply batch_rows_bounds.
  - apply order_dates_sorted_iff.
  - apply order_dates_sorted_iff.
Qed.

(** C6 (as the code has it): in every batch the step between consecutive
    OrderDate values is the window's hour count (365*4*24) floor-divided
    by the batch's row count, clamped to at least 1 hour; the batch's
    dates start on 2020-01-01 and advance by that step; they all lie in
    the 4-year window exactly when the batch has at most 35,040 rows. *)
Theorem order_date_step_and_window filename num_rows (w : World) :
  exists w' file,
    create_large_sample_dataset filename num_rows w = Ok (tt, w') /\
    fs w' !! filename = Some file /\
    List.map OrderDate (data_rows file) =
      flat_map (batch_dates num_rows) (Py.range 0 num_rows batch_size) /\
    (forall s, In s (Py.range 0 num_rows batch_size) ->
       0 < batch_rows_of num_rows s /\
       hours_per_batch_of num_rows s =
         Z.max 1 (365 * 4 * 24 / batch_rows_of num_rows s) /\
       1 <= hours_per_batch_of num_rows s /\
       length (batch_dates num_rows s) = Z.to_nat (batch_rows_of num_rows s) /\
       (forall i, 0 <= i < batch_rows_of num_rows s ->
          nth (Z.to_nat i) (batch_dates num_rows s) 0 =
          date_2020_01_01 + i * hours_per_batch_of num_rows s) /\
       (Forall in_window (batch_dates num_rows s) <->
        batch_rows_of num_rows s <= 365 * 4 * 24)).
Proof.
  destruct (create_file filename num_rows w)
    as (w' & rows & Hrun & Hfile & _ & _ & Hdt & _).
  exists w', (HeaderLine columns :: List.map DataLine rows).
  rewrite data_rows_of_lines.
  split; [exact Hrun |]. split; [exact Hfile |]. split; [exact Hdt |].
  intros s Hs. pose proof (batch_rows_bounds num_rows s Hs) as Hn.
  split; [lia |]. split; [reflexivity |].
  split; [unfold hours_per_batch_of; lia |].
  split; [unfold batch_dates, date_range;
          now rewrite List.length_map, List.length_seq |].
  split.
  - intros i Hi. now apply date_range_nth.
  - apply batch_dates_in_window. lia.
Qed.

End GeneratorFacts.

(** ** The demo orchestrator *)

Section DemoFacts.

Context {RandomState : Type} {np : Numpy RandomState}.
Variable sys_executable : string.

Lemma start_workers_spec (ids : list Z) :
  forall (acc : list nat) (w : @World RandomState),
    start_workers sys_executable ids acc w =
      Ok (acc ++ List.map (fun i => (length (trace w) + 2 * i)%nat) (seq 0 (length ids)),
          mkWorld (rng w) (fs w)
            (trace w ++
             flat_map (fun _ => [EvPopen [sys_executable; "distributed_sales_system.py";
                                          "worker"]%string; EvSleep 1]) ids)).
Proof.
  induction ids as [| i ids IH]; intros acc w.
  - cbn. unfold ret. rewrite !List.app_nil_r. now destruct w.
  - cbn [start_workers]. unfold bind, popen, emit. cbn [rng fs trace].
    rewrite IH. cbn [rng fs trace length seq List.map flat_map].
    rewrite <- !List.app_assoc. cbn [app]. f_equal. f_equal.
    f_equal. rewrite Nat.add_0_r. f_equal.
    rewrite <- List.seq_shift, List.map_map. apply List.map_ext.
    intros k. rewrite !List.length_app. cbn [length]. lia.
Qed.

Lemma terminate_all_spec (ps : list nat) :
  forall w : @World RandomState,
    for_each ps (fun p => emit (EvTerminate p)) w =
      Ok (tt, mkWorld (rng w) (fs w) (trace w ++ List.map EvTerminate ps)).
Proof.
  induction ps as [| p ps IH]; intros w.
  - cbn. unfold ret. rewrite List.app_nil_r. now destruct w.
  - cbn [for_each]. unfold bind, emit at 1. rewrite IH. cbn [rng fs trace List.map].
    now rewrite <- List.app_assoc.
Qed.

(** A demo run is its first block followed by the process events. *)
Lemma run_demo_spec csv_file num_workers outcome (w : World) :
  run_demo_with_multiple_workers sys_executable csv_file num_workers outcome w =
  match ensure_dataset csv_file w with
  | Ok (s, w1) =>
      Ok (tt, mkWorld (rng w1) (fs w1)
                (trace w1 ++ demo_events sys_executable s num_workers outcome
                               (length (trace w1))))
  | Raise e => Raise e
  end.
Proof.
  unfold run_demo_with_multiple_workers. unfold bind at 1.
  destruct (ensure_dataset csv_file w) as [[s w1] | e]; [| reflexivity].
  unfold bind at 1. unfold popen at 1. cbn [rng fs trace].
  unfold bind at 1. unfold emit at 1. cbn [rng fs trace].
  unfold bind at 1. rewrite start_workers_spec. cbn [rng fs trace app].
  unfold bind at 1. unfold emit at 1. cbn [rng fs trace].
  unfold bind at 1. rewrite terminate_all_spec. cbn [rng fs trace].
  unfold bind at 1. unfold emit at 1. cbn [rng fs trace].
  unfold demo_events. rewrite range_length.
  rewrite !List.length_app. cbn [length]. rewrite List.map_map.
  assert (Hmap : forall n,
    List.map (fun x => EvTerminate (length (trace w1) + 1 + 1 + 2 * x)) (seq 0 n) =
    List.map (fun i => EvTerminate (length (trace w1) + 2 + 2 * i)) (seq 0 n)).
  { intros n. apply List.map_ext. intros i. f_equal. lia. }
  rewrite Hmap.
  destruct outcome as [| []]; unfold emit, ret; cbn [rng fs trace];
    rewrite <- ?List.app_assoc; cbn [app]; rewrite ?List.app_nil_r;
    rewrite <- ?List.app_assoc; reflexivity.
Qed.

(** With an explicit path nothing is generated: the run consists of
    the process events alone and leaves the files as they were. *)
Lemma run_demo_explicit_path path num_workers outcome (w : World) :
  path <> ""%string ->
  run_demo_with_multiple_workers sys_executable (Some path) num_workers outcome w =
  Ok (tt, mkWorld (rng w) (fs w)
            (trace w ++ demo_events sys_executable path num_workers outcome
                           (length (trace w)))).
Proof.
  intros Hpath. rewrite run_demo_spec. unfold ensure_dataset, Py.falsy.
  destruct (decide (path = ""%string)); [contradiction | reflexivity].
Qed.

Section WithContract.

Hypothesis randint_length : forall low high size s,
  0 <= size -> length (fst (rs_randint low high size s)) = Z.to_nat size.
Hypothesis choice_length : forall a size s,
  a <> [] -> 0 <= size -> length (fst (rs_choice a size s)) = Z.to_nat size.
Hypothesis lognormal_length : forall mean sigma size s,
  0 <= size -> length (fst (rs_lognormal mean sigma size s)) = Z.to_nat size.

(** C9 (as the code has it): when the demo orchestrator is invoked
    without a dataset path and the default file sales_data_1m.csv does
    not exist, the dataset generator is run (1,000,000 rows) and has
    written the file before the server and the workers are started. *)
Theorem demo_creates_missing_default_dataset csv_file num_workers outcome
    (w : World) :
  Py.falsy csv_file = true ->
  fs w !! "sales_data_1m.csv"%string = None ->
  exists w1 w' rows,
    create_large_sample_dataset "sales_data_1m.csv" 1000000 w = Ok (tt, w1) /\
    fs w1 !! "sales_data_1m.csv"%string =
      Some (HeaderLine columns :: List.map DataLine rows) /\
    Z.of_nat (length rows) = 1000000 /\
    trace w1 = trace w ++ EvToCsv "sales_data_1m.csv" ModeW true 0 ::
                 batch_events "sales_data_1m.csv" 1000000
                   (Py.range 0 1000000 batch_size) /\
    run_demo_with_multiple_workers sys_executable csv_file num_workers outcome w =
      Ok (tt, w') /\
    fs w' = fs w1 /\
    trace w' = trace w1 ++ demo_events sys_executable "sales_data_1m.csv"
                             num_workers outcome (length (trace w1)).
Proof.
  intros Hfalsy Hmissing.
  destruct (create_file randint_length choice_length lognormal_length
              "sales_data_1m.csv" 1000000 w)
    as (w1 & rows & Hrun & Hfile & Htrace & Hid & _).
  exists w1, (mkWorld (rng w1) (fs w1)
                (trace w1 ++ demo_events sys_executable "sales_data_1m.csv"
                               num_workers outcome (length (trace w1)))), rows.
  split; [exact Hrun |]. split; [exact Hfile |].
  split.
  { rewrite <- (List.length_map TransactionID), Hid.
    rewrite List.length_map, List.length_seq. lia. }
  split; [exact Htrace |].
  split; [| split; reflexivity].
  rewrite run_demo_spec. unfold ensure_dataset. rewrite Hfalsy.
  unfold bind at 1. unfold path_exists.
  assert (Hno : bool_decide (is_Some (fs w !! "sales_data_1m.csv"%string)) = false).
  { apply bool_decide_eq_false_2. intros [x Hx]. congruence. }
  rewrite Hno. cbn [negb]. unfold bind at 1. rewrite Hrun. reflexivity.
Qed.

End WithContract.

End DemoFacts.

(** ** The revenue aggregator *)

Lemma mapM_data_lines (rows : list Row) :
  mapM data_row (List.map DataLine rows) = Some rows.
Proof.
  induction rows as [| r rows IH]; [reflexivity |].
  cbn [List.map mapM data_row]. rewrite IH. reflexivity.
Qed.

(** Multiplying the two columns gives the list of the per-row products
    [Price * Quantity]. *)
Lemma sum_of_products (rows : list Row) :
  series_mul (List.map fst (List.map (fun r => (Price r, Quantity r)) rows))
             (List.map snd (List.map (fun r => (Price r, Quantity r)) rows)) =
  List.map (fun r => PrimFloat.mul (Price r) (float_of_int64 (Quantity r))) rows.
Proof.
  induction rows as [| r rows IH]; [reflexivity |].
  cbn [List.map fst snd]. unfold series_mul in *. cbn [zip_with].
  f_equal. exact IH.
Qed.

(** The two float loops of [sum] do not agree in general: on ten times
    0.1 the plain loop loses the last bit and the compensated one does
    not. *)
Example sum_of_ten_tenths :
  py_sum PlainSum (List.repeat 0.1%float 10) = 0.9999999999999999%float /\
  py_sum CompensatedSum (List.repeat 0.1%float 10) = 1%float.
Proof. split; reflexivity. Qed.


(** ** The contract holds for the test generator *)

Lemma stream_length (n : nat) (s : Z) : length (fst (TestRandom.stream n s)) = n.
Proof.
  revert s. induction n as [| n IH]; intros s; [reflexivity |].
  cbn [TestRandom.stream]. specialize (IH (TestRandom.next s)).
  destruct (TestRandom.stream n (TestRandom.next s)). cbn in *. congruence.
Qed.

Lemma lcg_randint_length low high size (s : Z) :
  0 <= size ->
  length (fst (@rs_randint _ TestRandom.lcg low high size s)) = Z.to_nat size.
Proof.
  intros _. cbn. unfold TestRandom.randint.
  pose proof (stream_length (Z.to_nat size) s) as H.
  destruct (TestRandom.stream (Z.to_nat size) s). cbn in *.
  now rewrite List.length_map.
Qed.

Lemma lcg_choice_length (a : list string) size (s : Z) :
  a <> [] -> 0 <= size ->
  length (fst (@rs_choice _ TestRandom.lcg a size s)) = Z.to_nat size.
Proof.
  intros _ _. cbn. unfold TestRandom.choice.
  pose proof (stream_length (Z.to_nat size) s) as H.
  destruct (TestRandom.stream (Z.to_nat size) s). cbn in *.
  now rewrite List.length_map.
Qed.

Lemma lcg_lognormal_length mean sigma size (s : Z) :
  0 <= size ->
  length (fst (@rs_lognormal _ TestRandom.lcg mean sigma size s)) = Z.to_nat size.
Proof.
  intros _. cbn. unfold TestRandom.lognormal.
  pose proof (stream_length (Z.to_nat size) s) as H.
  destruct (TestRandom.stream (Z.to_nat size) s). cbn in *.
  now rewrite List.length_map.
Qed.

Lemma lcg_randint_half_open : randint_half_open (np := TestRandom.lcg).
Proof.
  intros low high size s Hlt. cbn. unfold TestRandom.randint.
  destruct (TestRandom.stream (Z.to_nat size) s) as [l s']. cbn [fst].
  apply List.Forall_forall. intros x Hx.
  apply List.in_map_iff in Hx as (y & <- & _).
  pose proof (Z.mod_pos_bound y (high - low) ltac:(lia)). lia.
Qed.

Lemma lcg_seed_resets (z s1 s2 : Z) :
  @rs_seed _ TestRandom.lcg z s1 = @rs_seed _ TestRandom.lcg z s2.
Proof. reflexivity. Qed.

(** ** The theorems at concrete inputs *)

(** A run of the generator on the test generator, three rows. *)
Example three_generated_rows :
  match create_large_sample_dataset (np := TestRandom.lcg) "s.csv" 3 fresh_world with
  | Ok (_, w) => (fs w !! "s.csv"%string, trace w)
  | Raise _ => (None, [])
  end =
  (Some [HeaderLine columns;
         DataLine (mkRow 1 date_2020_01_01 4986 "Product_807" "Sports"
                     753%float 6 40559 "West");
         DataLine (mkRow 2 (date_2020_01_01 + 11680) 4311 "Product_736" "Health"
                     866%float 8 69928 "West");
         DataLine (mkRow 3 (date_2020_01_01 + 23360) 6951 "Product_533" "Beauty"
                     143%float 4 64837 "Central")],
   [EvToCsv "s.csv" ModeW true 0; EvToCsv "s.csv" ModeA false 3]).
Proof. vm_compute. reflexivity. Qed.

Lemma transaction_ids_witness :
  exists w' file,
    create_large_sample_dataset (np := TestRandom.lcg) "sales.csv" 3 fresh_world
      = Ok (tt, w') /\
    fs w' !! "sales.csv"%string = Some file /\
    List.map TransactionID (data_rows file) = [1; 2; 3] /\
    StronglySorted Z.lt (List.map TransactionID (data_rows file)).
Proof.
  exact (transaction_ids_are_1_to_N lcg_randint_length lcg_choice_length
           lcg_lognormal_length "sales.csv" 3 fresh_world).
Defined.

Lemma generated_file_witness :
  exists w' rows,
    create_large_sample_dataset (np := TestRandom.lcg) "sales.csv" 250000 fresh_world
      = Ok (tt, w') /\
    fs w' !! "sales.csv"%string = Some (HeaderLine columns :: List.map DataLine rows) /\
    Z.of_nat (length rows) = 250000 /\
    Z.of_nat (length (HeaderLine columns :: List.map DataLine rows)) = 250001 /\
    trace w' = [EvToCsv "sales.csv" ModeW true 0;
                EvToCsv "sales.csv" ModeA false 100000;
                EvToCsv "sales.csv" ModeA false 100000;
                EvToCsv "sales.csv" ModeA false 50000].
Proof.
  destruct (generated_file_has_N_rows lcg_randint_length lcg_choice_length
              lcg_lognormal_length "sales.csv" 250000 fresh_world ltac:(lia))
    as (w' & rows & Hrun & Hfile & Hrows & Hlines & Htrace).
  exists w', rows.
  split; [exact Hrun |]. split; [exact Hfile |]. split; [exact Hrows |].
  split; [exact Hlines | exact (Htrace eq_refl)].
Defined.

Lemma generation_witness :
  exists file w1' w2',
    create_large_sample_dataset (np := TestRandom.lcg) "a.csv" 3 fresh_world
      = Ok (tt, w1') /\
    create_large_sample_dataset (np := TestRandom.lcg) "b.csv" 3 fixture_world
      = Ok (tt, w2') /\
    fs w1' !! "a.csv"%string = Some file /\
    fs w2' !! "b.csv"%string = Some file.
Proof.
  exact (generation_is_deterministic lcg_randint_length lcg_choice_length
           lcg_lognormal_length lcg_seed_resets 3 "a.csv" "b.csv"
           fresh_world fixture_world).
Defined.

Lemma random_fields_witness :
  exists w' file,
    create_large_sample_dataset (np := TestRandom.lcg) "sales.csv" 3 fresh_world
      = Ok (tt, w') /\
    fs w' !! "sales.csv"%string = Some file /\
    Forall (fun r => 1 <= Quantity r <= 9 /\
                     1000 <= ProductID r <= 9998 /\
                     10000 <= CustomerID r <= 99998) (data_rows file).
Proof.
  exact (random_fields_in_range lcg_randint_length lcg_choice_length
           lcg_lognormal_length lcg_randint_half_open "sales.csv" 3 fresh_world).
Defined.


Lemma order_dates_witness :
  exists w' file,
    create_large_sample_dataset (np := TestRandom.lcg) "sales.csv" 3 fresh_world
      = Ok (tt, w') /\
    fs w' !! "sales.csv"%string = Some file /\
    List.map OrderDate (data_rows file) =
      [date_2020_01_01; date_2020_01_01 + 11680; date_2020_01_01 + 23360] /\
    (forall s, In s [0] ->
       StronglySorted Z.lt (batch_dates 3 s) /\
       hd_error (batch_dates 3 s) = Some date_2020_01_01) /\
    (Sorted Z.le (List.map OrderDate (data_rows file)) <-> 3 <= batch_size).
Proof.
  exact (order_dates_sorted_within_batches lcg_randint_length lcg_choice_length
           lcg_lognormal_length "sales.csv" 3 fresh_world).
Defined.

Lemma order_date_step_witness :
  exists w' file,
    create_large_sample_dataset (np := TestRandom.lcg) "sales.csv" 3 fresh_world
      = Ok (tt, w') /\
    fs w' !! "sales.csv"%string = Some file /\
    List.map OrderDate (data_rows file) =
      [date_2020_01_01; date_2020_01_01 + 11680; date_2020_01_01 + 23360] /\
    (forall s, In s [0] ->
       0 < batch_rows_of 3 s /\
       hours_per_batch_of 3 s = Z.max 1 (365 * 4 * 24 / batch_rows_of 3 s) /\
       1 <= hours_per_batch_of 3 s /\
       length (batch_dates 3 s) = Z.to_nat (batch_rows_of 3 s) /\
       (forall i, 0 <= i < batch_rows_of 3 s ->
          nth (Z.to_nat i) (batch_dates 3 s) 0 =
          date_2020_01_01 + i * hours_per_batch_of 3 s) /\
       (Forall in_window (batch_dates 3 s) <-> batch_rows_of 3 s <= 365 * 4 * 24)).
Proof.
  exact (order_date_step_and_window lcg_randint_length lcg_choice_length
           lcg_lognormal_length "sales.csv" 3 fresh_world).
Defined.

Lemma demo_witness :
  exists w1 w' rows,
    create_large_sample_dataset (np := TestRandom.lcg) "sales_data_1m.csv" 1000000
      fresh_world = Ok (tt, w1) /\
    fs w1 !! "sales_data_1m.csv"%string =
      Some (HeaderLine columns :: List.map DataLine rows) /\
    Z.of_nat (length rows) = 1000000 /\
    trace w1 = EvToCsv "sales_data_1m.csv" ModeW true 0 ::
               batch_events "sales_data_1m.csv" 1000000 (Py.range 0 1000000 batch_size) /\
    run_demo_with_multiple_workers (np := TestRandom.lcg) "python3" None 3
      ServerExited fresh_world = Ok (tt, w') /\
    fs w' = fs w1 /\
    trace w' = trace w1 ++ demo_events "python3" "sales_data_1m.csv" 3 ServerExited
                             (length (trace w1)).
Proof.
  exact (demo_creates_missing_default_dataset "python3" lcg_randint_length
           lcg_choice_length lcg_lognormal_length None 3 ServerExited fresh_world
           eq_refl (lookup_empty _)).
Defined.

(** ** Where the specification and the code part *)

(** C1 fails at N = 100,001: row 100,000 closes the first batch 99,999
    hours after 2020-01-01, and row 100,001 opens the second batch on
    2020-01-01 again. *)
Lemma order_dates_decrease_at_batch_boundary :
  exists w' file,
    create_large_sample_dataset (np := TestRandom.lcg) "sales.csv" 100001 fresh_world
      = Ok (tt, w') /\
    fs w' !! "sales.csv"%string = Some file /\
    nth (Z.to_nat 99999) (List.map OrderDate (data_rows file)) 0 =
      date_2020_01_01 + 99999 /\
    nth (Z.to_nat 100000) (List.map OrderDate (data_rows file)) 0 =
      date_2020_01_01 /\
    ~ Sorted Z.le (List.map OrderDate (data_rows file)).
Proof.
  destruct (create_file lcg_randint_length lcg_choice_length lcg_lognormal_length
              "sales.csv" 100001 fresh_world)
    as (w' & rows & Hrun & Hfile & _ & _ & Hdt & _).
  exists w', (HeaderLine columns :: List.map DataLine rows).
  rewrite data_rows_of_lines, Hdt.
  split; [exact Hrun |]. split; [exact Hfile |].
  destruct (dates_at_first_boundary 100001) as [H1 H2]; [reflexivity |].
  split; [exact H1 |]. split; [exact H2 |].
  intros Hsorted. apply order_dates_sorted_iff in Hsorted.
  unfold batch_size in Hsorted. lia.
Qed.

(** C6 fails at N = 100,000: the single batch has more rows than the
    window has hours, the step is clamped to 1 hour, and the last row is
    dated 99,999 hours after 2020-01-01, outside the 35,040-hour window. *)
Lemma full_batch_leaves_the_window :
  exists w' file,
    create_large_sample_dataset (np := TestRandom.lcg) "sales.csv" 100000 fresh_world
      = Ok (tt, w') /\
    fs w' !! "sales.csv"%string = Some file /\
    Py.range 0 100000 batch_size = [0] /\
    hours_per_batch_of 100000 0 = 1 /\
    nth (Z.to_nat 99999) (List.map OrderDate (data_rows file)) 0 =
      date_2020_01_01 + 99999 /\
    ~ in_window (date_2020_01_01 + 99999).
Proof.
  destruct (create_file lcg_randint_length lcg_choice_length lcg_lognormal_length
              "sales.csv" 100000 fresh_world)
    as (w' & rows & Hrun & Hfile & _ & _ & Hdt & _).
  exists w', (HeaderLine columns :: List.map DataLine rows).
  rewrite data_rows_of_lines, Hdt.
  split; [exact Hrun |]. split; [exact Hfile |].
  destruct last_date_of_full_batch as (E & Hh & Hlast).
  split; [exact E |]. split; [exact Hh |]. split; [exact Hlast |].
  unfold in_window, window_hours, date_2020_01_01. lia.
Qed.

(** Through the [demo] subcommand a path is always passed on, the default
    one when the command line has none: the run below starts from a world
    without files and generates nothing. *)
Remark cli_demo_passes_the_default_path :
  main (np := TestRandom.lcg) "python3" ["setup_and_demo.py"; "demo"]%string
    ServerExited fresh_world =
  Ok (tt, mkWorld 0 ∅
            (demo_events "python3" "sales_data_1m.csv" 3 ServerExited 0)).
Proof.
  change (main (np := TestRandom.lcg) "python3" ["setup_and_demo.py"; "demo"]%string
            ServerExited fresh_world)
    with (run_demo_with_multiple_workers (np := TestRandom.lcg) "python3"
            (Some "sales_data_1m.csv"%string) 3 ServerExited fresh_world).
  rewrite run_demo_explicit_path by discriminate. reflexivity.
Qed.

(** C9 fails for a path that is given but does not exist: nothing is
    generated, and the server and the workers are started all the same,
    called directly or through the [demo] subcommand. *)
Lemma demo_with_missing_explicit_path :
  (∅ : gmap string File) !! "missing.csv"%string = None /\
  run_demo_with_multiple_workers (np := TestRandom.lcg) "python3"
    (Some "missing.csv"%string) 3 ServerExited fresh_world =
  Ok (tt, mkWorld 0 ∅
            [EvPopen ["python3"; "distributed_sales_system.py"; "server"; "missing.csv"]%string;
             EvSleep 3;
             EvPopen ["python3"; "distributed_sales_system.py"; "worker"]%string;
             EvSleep 1;
             EvPopen ["python3"; "distributed_sales_system.py"; "worker"]%string;
             EvSleep 1;
             EvPopen ["python3"; "distributed_sales_system.py"; "worker"]%string;
             EvSleep 1;
             EvWait 0; EvTerminate 2; EvTerminate 4; EvTerminate 6; EvPoll 0]) /\
  main (np := TestRandom.lcg) "python3"
    ["setup_and_demo.py"; "demo"; "missing.csv"]%string ServerExited fresh_world =
  run_demo_with_multiple_workers (np := TestRandom.lcg) "python3"
    (Some "missing.csv"%string) 3 ServerExited fresh_world.
Proof.
  split; [apply lookup_empty |]. split.
  - rewrite run_demo_explicit_path by discriminate. reflexivity.
  - reflexivity.
Qed.

(** ** Prices *)

Lemma data_lines_ok (P : Row -> Prop) (rows : list Row) :
  Forall P rows -> Forall (line_ok P) (List.map DataLine rows).
Proof. intros H. apply List.Forall_map. exact H. Qed.

Lemma data_rows_ok (P : Row -> Prop) (file : File) :
  Forall (line_ok P) file -> Forall P (data_rows file).
Proof.
  unfold data_rows. induction 1 as [| l file Hl _ IH]; [constructor |].
  destruct l; cbn; [exact IH | constructor; assumption].
Qed.

Example rint_ties_to_even :
  List.map rint [0.5; 1.5; 2.5; 0.4; 0.6; -0.5; -2.5; 3.5; 16153.000000000002;
                 4503599627370495.5; 9007199254740991; 1e300]%float =
  [0; 2; 2; 0; 1; -0; -2; 4; 16153; 4503599627370496; 9007199254740991;
   1e300]%float.
Proof. reflexivity. Qed.

(** Below 2^52 the definition agrees with the usual way to get [rint]
    out of the rounding of the addition. *)
Example rint_by_addition :
  Forall (fun y => rint y = PrimFloat.sub (PrimFloat.add y 0x1p52) 0x1p52)
    [0.5; 1.5; 2.5; 0.4; 0.6; 3.5; 16153.000000000002; 2008.5536923187668;
     4503599627370495.5]%float.
Proof. repeat constructor. Qed.

Example np_round2_examples :
  List.map np_round2 [20.085536923187668; 161.534; 2.675; 1.005; 0.006;
                      0.005; 0.004]%float =
  [20.09; 161.53; 2.68; 1; 0.01; 0; 0]%float.
Proof. reflexivity. Qed.

Lemma shr_1_nonneg (mrs : shr_record) :
  0 <= shr_m mrs -> 0 <= shr_m (shr_1 mrs).
Proof.
  destruct mrs as [m r s]. cbn [shr_m].
  destruct m as [| [p | p |] | p]; cbn; lia.
Qed.

Lemma iter_shr_1_nonneg (p : positive) :
  forall mrs, 0 <= shr_m mrs -> 0 <= shr_m (SpecFloat.iter_pos shr_1 p mrs).
Proof.
  induction p as [p IH | p IH |]; intros mrs H; cbn [SpecFloat.iter_pos].
  - apply IH, IH, shr_1_nonneg, H.
  - apply IH, IH, H.
  - apply shr_1_nonneg, H.
Qed.

Lemma shr_fexp_nonneg (m e : Z) (l : location) :
  0 <= m -> 0 <= shr_m (fst (shr_fexp prec emax m e l)).
Proof.
  intros H. unfold shr_fexp, shr.
  assert (H0 : 0 <= shr_m (shr_record_of_loc m l))
    by (destruct l as [| []]; exact H).
  destruct (fexp prec emax (Zdigits2 m + e) - e); cbn [fst]; trivial.
  apply iter_shr_1_nonneg, H0.
Qed.

Lemma round_nearest_even_nonneg (m : Z) (l : location) :
  0 <= m -> 0 <= round_nearest_even m l.
Proof.
  intros H. destruct l as [| []]; cbn [round_nearest_even]; try lia.
  destruct (Z.even m); lia.
Qed.

(** Rounding a non-negative mantissa under a plus sign gives no NaN and
    no minus sign. *)
Lemma binary_round_aux_nonneg (m e : Z) (l : location) :
  0 <= m -> SF_nonneg (binary_round_aux prec emax false m e l).
Proof.
  intros H. unfold binary_round_aux.
  pose proof (shr_fexp_nonneg m e l H) as H1.
  destruct (shr_fexp prec emax m e l) as [mrs' e']. cbn [fst] in H1.
  pose proof (shr_fexp_nonneg _ e' loc_Exact
                (round_nearest_even_nonneg _ (loc_of_shr_record mrs') H1)) as H2.
  destruct (shr_fexp prec emax _ e' loc_Exact) as [mrs'' e'']. cbn [fst] in H2.
  destruct (shr_m mrs'') as [| p | p]; [exact I | | lia].
  destruct (e'' <=? emax - prec); reflexivity.
Qed.

Lemma of_uint63_nonneg (n : int) : SF_nonneg (Prim2SF (PrimFloat.of_uint63 n)).
Proof.
  rewrite of_uint63_spec. pose proof (Uint63.to_Z_bounded n) as [H _].
  unfold binary_normalize. destruct (Uint63.to_Z n) as [| p | p]; [exact I | | lia].
  unfold binary_round. destruct (shl_align _ _ _) as [mz ez].
  apply binary_round_aux_nonneg. lia.
Qed.

Lemma positive_SF (x : float) :
  PrimFloat.ltb 0 x = true ->
  match Prim2SF x with
  | S754_infinity false | S754_finite false _ _ => True
  | _ => False
  end.
Proof.
  rewrite ltb_spec. change (Prim2SF 0) with (S754_zero false).
  unfold SFltb. destruct (Prim2SF x) as [s | [] | | [] m e]; cbn; try discriminate; trivial.
Qed.

Lemma mul_100_nonneg (x : float) :
  PrimFloat.ltb 0 x = true -> SF_nonneg (Prim2SF (PrimFloat.mul x 100)).
Proof.
  intros H. apply positive_SF in H. rewrite mul_spec.
  change (Prim2SF 100) with (S754_finite false 7036874417766400 (-46)).
  unfold SF64mul, SFmul.
  destruct (Prim2SF x) as [s | [] | | [] m e]; try contradiction.
  - reflexivity.
  - apply binary_round_aux_nonneg. lia.
Qed.

Lemma rint_nonneg (y : float) :
  SF_nonneg (Prim2SF y) -> SF_nonneg (Prim2SF (rint y)).
Proof.
  intros H. unfold rint.
  destruct (Prim2SF y) as [s | s | | s m [| e | e]] eqn:E; try (rewrite E; exact H).
  cbn in H. subst s. apply of_uint63_nonneg.
Qed.

Lemma div_100_nonneg (y : float) :
  SF_nonneg (Prim2SF y) -> SF_nonneg (Prim2SF (PrimFloat.div y 100)).
Proof.
  intros H. rewrite div_spec.
  change (Prim2SF 100) with (S754_finite false 7036874417766400 (-46)).
  unfold SF64div, SFdiv.
  destruct (Prim2SF y) as [s | s | | s m e]; cbn in H; try contradiction.
  - exact I.
  - subst s. reflexivity.
  - subst s. unfold SFdiv_core_binary.
    set (m' := match _ - _ with Z0 => _ | Zpos _ => _ | Zneg _ => _ end).
    assert (Hm : 0 <= m').
    { unfold m'. destruct (_ - _); [lia | apply Z.shiftl_nonneg; lia | lia]. }
    pose proof (Z.div_pos m' (Z.pos 7036874417766400) Hm ltac:(lia)) as Hq.
    unfold Z.div in Hq.
    destruct (Z.div_eucl m' (Z.pos 7036874417766400)) as [q r]. cbn [fst] in Hq.
    apply binary_round_aux_nonneg, Hq.
Qed.

Lemma nonneg_leb (p : float) :
  SF_nonneg (Prim2SF p) -> PrimFloat.leb 0 p = true.
Proof.
  rewrite leb_spec. change (Prim2SF 0) with (S754_zero false).
  unfold SFleb. destruct (Prim2SF p) as [s | s | | s m e]; cbn; try contradiction;
    intros H; try subst s; reflexivity.
Qed.

(** [np.round(x, 2)] of a positive [x] is not negative. *)
Lemma np_round2_nonneg (x : float) :
  PrimFloat.ltb 0 x = true -> PrimFloat.leb 0 (np_round2 x) = true.
Proof.
  intros H. apply nonneg_leb, div_100_nonneg, rint_nonneg, mul_100_nonneg, H.
Qed.

Lemma zip_rows_prices c1 c2 c3 c4 c5 c6 c7 c8 c9 :
  forall rows,
    zip_rows c1 c2 c3 c4 c5 c6 c7 c8 c9 = Some rows ->
    List.map Price rows = c6.
Proof.
  revert c2 c3 c4 c5 c6 c7 c8 c9.
  induction c1 as [| x1 c1 IH]; intros c2 c3 c4 c5 c6 c7 c8 c9 rows Hz.
  - destruct c2; [| discriminate Hz]. destruct c3; [| discriminate Hz].
    destruct c4; [| discriminate Hz]. destruct c5; [| discriminate Hz].
    destruct c6; [| discriminate Hz]. destruct c7; [| discriminate Hz].
    destruct c8; [| discriminate Hz]. destruct c9; [| discriminate Hz].
    injection Hz as <-. reflexivity.
  - destruct c2; [discriminate Hz |]. destruct c3; [discriminate Hz |].
    destruct c4; [discriminate Hz |]. destruct c5; [discriminate Hz |].
    destruct c6; [discriminate Hz |]. destruct c7; [discriminate Hz |].
    destruct c8; [discriminate Hz |]. destruct c9; [discriminate Hz |].
    cbn [zip_rows] in Hz.
    destruct (zip_rows c1 c2 c3 c4 c5 c6 c7 c8 c9) as [rows' |] eqn:Hz';
      [| discriminate Hz].
    injection Hz as <-. cbn [List.map Price]. f_equal. exact (IH _ _ _ _ _ _ _ _ _ Hz').
Qed.

Section GeneratorPrices.

Context {RandomState : Type} {np : Numpy RandomState}.

Hypothesis draws_positive : lognormal_positive.
Hypothesis round_is_rint : np_round_rints.

(** A batch keeps the file's prices rounded draws. *)
Lemma batch_body_keeps_prices filename num_rows batch_start (w w' : World) :
  batch_body filename num_rows batch_start w = Ok (tt, w') ->
  Forall (line_ok (fun r => rounded_price (Price r))) (default [] (fs w !! filename)) ->
  Forall (line_ok (fun r => rounded_price (Price r))) (default [] (fs w' !! filename)).
Proof.
  unfold batch_body, bind, floordiv.
  destruct (_ =? 0); [discriminate |].
  unfold ret, draw. cbn [rng fs trace].
  set (n := Z.min (batch_start + batch_size) num_rows - batch_start).
  destruct (rs_randint 1000 9999 n (rng w)) as [c3 s3]. cbn [rng fs trace].
  destruct (rs_choice product_names n s3) as [c4 s4]. cbn [rng fs trace].
  destruct (rs_choice categories n s4) as [c5 s5]. cbn [rng fs trace].
  pose proof (draws_positive 3 1 n s5) as C6.
  destruct (rs_lognormal 3 1 n s5) as [c6 s6]. cbn [fst rng fs trace] in *.
  destruct (rs_randint 1 10 n s6) as [c7 s7]. cbn [rng fs trace].
  destruct (rs_randint 10000 99999 n s7) as [c8 s8]. cbn [rng fs trace].
  destruct (rs_choice regions n s8) as [c9 s9]. cbn [rng fs trace].
  unfold DataFrame. cbn [bd_TransactionID bd_OrderDate bd_ProductID
    bd_ProductName bd_Category bd_Price bd_Quantity bd_CustomerID bd_Region].
  destruct (zip_rows _ _ _ _ _ _ _ _ _) as [rows |] eqn:Hz; [| discriminate].
  pose proof (zip_rows_prices _ _ _ _ _ _ _ _ _ _ Hz) as E6.
  unfold ret, to_csv, csv_lines. cbn [rng fs trace df_rows app].
  intros Hrun Hold. injection Hrun as <-. cbn [fs].
  rewrite lookup_insert_eq. cbn [default].
  apply Forall_app; split; [exact Hold |].
  apply data_lines_ok.
  apply (List.Forall_map Price (fun p => rounded_price p)). rewrite E6.
  apply List.Forall_map. eapply List.Forall_impl; [| exact C6].
  intros x Hx. cbn beta. rewrite round_is_rint. split.
  - exists x. split; [exact Hx | reflexivity].
  - exact (np_round2_nonneg x Hx).
Qed.

Lemma batch_loop_keeps_prices filename num_rows (starts : list Z) :
  forall w w' : World,
    for_each starts (batch_body filename num_rows) w = Ok (tt, w') ->
    Forall (line_ok (fun r => rounded_price (Price r))) (default [] (fs w !! filename)) ->
    Forall (line_ok (fun r => rounded_price (Price r))) (default [] (fs w' !! filename)).
Proof.
  induction starts as [| s starts IH]; intros w w' Hrun Hold.
  - cbn in Hrun. unfold ret in Hrun. injection Hrun as <-. exact Hold.
  - cbn [for_each] in Hrun. unfold bind in Hrun.
    destruct (batch_body filename num_rows s w) as [[[] w1] |] eqn:Hstep;
      [| discriminate].
    exact (IH _ _ Hrun (batch_body_keeps_prices _ _ _ _ _ Hstep Hold)).
Qed.

Hypothesis randint_length : forall low high size s,
  0 <= size -> length (fst (rs_randint low high size s)) = Z.to_nat size.
Hypothesis choice_length : forall a size s,
  a <> [] -> 0 <= size -> length (fst (rs_choice a size s)) = Z.to_nat size.
Hypothesis lognormal_length : forall mean sigma size s,
  0 <= size -> length (fst (rs_lognormal mean sigma size s)) = Z.to_nat size.


End GeneratorPrices.

(** The contract holds for the second test generator. *)
Lemma prices_randint_length low high size (s : Z) :
  0 <= size ->
  length (fst (@rs_randint _ TestPrices.numpy low high size s)) = Z.to_nat size.
Proof. exact (lcg_randint_length low high size s). Qed.

Lemma prices_choice_length a size (s : Z) :
  a <> [] -> 0 <= size ->
  length (fst (@rs_choice _ TestPrices.numpy a size s)) = Z.to_nat size.
Proof. exact (lcg_choice_length a size s). Qed.

Lemma prices_lognormal_length mean sigma size (s : Z) :
  0 <= size ->
  length (fst (@rs_lognormal _ TestPrices.numpy mean sigma size s)) = Z.to_nat size.
Proof.
  intros _. cbn. unfold TestPrices.lognormal.
  pose proof (stream_length (Z.to_nat size) s) as H.
  destruct (TestRandom.stream (Z.to_nat size) s) as [l s']. cbn [fst] in *.
  now rewrite List.length_map.
Qed.

Lemma prices_lognormal_positive : lognormal_positive (np := TestPrices.numpy).
Proof.
  intros mean sigma size s. cbn. unfold TestPrices.lognormal.
  destruct (TestRandom.stream (Z.to_nat size) s) as [l s']. cbn [fst].
  apply List.Forall_map, List.Forall_forall. intros x _.
  assert (Hall : Forall (fun y => PrimFloat.ltb 0%float y = true) TestPrices.table)
    by (repeat constructor).
  rewrite List.Forall_forall in Hall. apply Hall, List.nth_In.
  pose proof (Z.mod_pos_bound x 8 ltac:(lia)). cbn [length TestPrices.table]. lia.
Qed.

Lemma prices_round_rints : np_round_rints (np := TestPrices.numpy).
Proof. intros x. reflexivity. Qed.



(** * Further properties *)

(** ** The generator: exceptions *)

Section GeneratorExceptions.

Context {RandomState : Type} {np : Numpy RandomState}.

(** Inside the loop [batch_rows] is at least 1, so the division goes
    through; a batch can only fail in [pd.DataFrame]. *)
Lemma batch_body_outcome filename num_rows batch_start (w : World) :
  0 <= batch_start < num_rows ->
  (exists w', batch_body filename num_rows batch_start w = Ok (tt, w')) \/
  batch_body filename num_rows batch_start w = Raise ValueError.
Proof.
  intros Hs. unfold batch_body, bind, floordiv.
  destruct (Z.eqb_spec (Z.min (batch_start + batch_size) num_rows - batch_start) 0)
    as [E | _]; [unfold batch_size in E; lia |].
  unfold ret, draw. cbn [rng fs trace].
  repeat match goal with
         | |- context [let (_, _) := ?d in _] => destruct d; cbn [rng fs trace]
         end.
  unfold DataFrame. destruct (zip_rows _ _ _ _ _ _ _ _ _).
  - left. eexists. reflexivity.
  - right. reflexivity.
Qed.

Lemma batch_loop_outcome filename num_rows (starts : list Z) :
  Forall (fun s => 0 <= s < num_rows) starts ->
  forall w : World,
    (exists w', for_each starts (batch_body filename num_rows) w = Ok (tt, w')) \/
    for_each starts (batch_body filename num_rows) w = Raise ValueError.
Proof.
  induction 1 as [| s starts Hs _ IH]; intros w.
  - left. eexists. reflexivity.
  - cbn [for_each]. unfold bind.
    destruct (batch_body_outcome filename num_rows s w Hs) as [[w1 ->] | ->].
    + apply IH.
    + right. reflexivity.
Qed.

(** X7: whatever numpy returns, the generator never raises
    ZeroDivisionError: it returns normally, or it fails with the
    ValueError of a data frame whose columns differ in length. *)
Theorem generator_never_divides_by_zero filename num_rows (w : World) :
  ((exists w', create_large_sample_dataset filename num_rows w = Ok (tt, w')) \/
   create_large_sample_dataset filename num_rows w = Raise ValueError) /\
  create_large_sample_dataset filename num_rows w <> Raise ZeroDivisionError.
Proof.
  assert (H : (exists w', create_large_sample_dataset filename num_rows w = Ok (tt, w')) \/
              create_large_sample_dataset filename num_rows w = Raise ValueError).
  { unfold create_large_sample_dataset, bind at 1, draw.
    unfold bind at 1, to_csv. cbn [rng fs trace].
    apply batch_loop_outcome, batch_starts_bounds. }
  split; [exact H |].
  destruct H as [[w' ->] | ->]; discriminate.
Qed.

End GeneratorExceptions.

(** ** The generator: batches, files, reruns *)

Lemma map_const_seq {A} (c : A) (a n : nat) :
  List.map (fun _ => c) (seq a n) = List.repeat c n.
Proof.
  revert a. induction n as [| n IH]; intros a; [reflexivity |].
  cbn [seq List.map List.repeat]. now rewrite IH.
Qed.

(** The batches of a run: [num_rows / 100000] full ones, then the rest. *)
Lemma batch_rows_list num_rows :
  0 <= num_rows ->
  List.map (batch_rows_of num_rows) (Py.range 0 num_rows batch_size) =
  batch_sizes num_rows.
Proof.
  intros Hn. unfold Py.range, Py.range_len, batch_sizes, batch_size.
  pose proof (Z.div_mod num_rows 100000 ltac:(lia)) as Hdm.
  pose proof (Z.mod_pos_bound num_rows 100000 ltac:(lia)) as Hmod.
  assert (Hq : 0 <= num_rows / 100000) by (apply Z.div_pos; lia).
  set (q := num_rows / 100000) in *. set (r := num_rows mod 100000) in *.
  assert (Hfull : forall i, (i < Z.to_nat q)%nat ->
            batch_rows_of num_rows (0 + Z.of_nat i * 100000) = 100000).
  { intros i Hi. unfold batch_rows_of, batch_end_of, batch_size. lia. }
  rewrite List.map_map.
  destruct (Z.eqb_spec r 0) as [Hr | Hr].
  - assert (Hk : (if 0 <? num_rows
                  then Z.to_nat ((num_rows - 0 - 1) / 100000 + 1) else 0%nat)
                 = Z.to_nat q).
    { destruct (Z.ltb_spec 0 num_rows); [| lia].
      assert ((num_rows - 0 - 1) / 100000 = q - 1) as ->
        by (symmetry; apply (Z.div_unique_pos _ _ _ 99999); lia).
      f_equal. lia. }
    rewrite Hk, List.app_nil_r, <- (map_const_seq 100000 0).
    apply List.map_ext_in. intros i Hi. apply List.in_seq in Hi.
    apply Hfull. lia.
  - assert (Hk : (if 0 <? num_rows
                  then Z.to_nat ((num_rows - 0 - 1) / 100000 + 1) else 0%nat)
                 = S (Z.to_nat q)).
    { destruct (Z.ltb_spec 0 num_rows); [| lia].
      assert ((num_rows - 0 - 1) / 100000 = q) as ->
        by (symmetry; apply (Z.div_unique_pos _ _ _ (r - 1)); lia).
      lia. }
    rewrite Hk, List.seq_S, List.map_app. cbn [List.map]. f_equal.
    + rewrite <- (map_const_seq 100000 0).
      apply List.map_ext_in. intros i Hi. apply List.in_seq in Hi.
      apply Hfull. lia.
    + f_equal. unfold batch_rows_of, batch_end_of, batch_size. lia.
Qed.

Lemma batch_sizes_bounds num_rows :
  0 <= num_rows ->
  Forall (fun n => 1 <= n <= batch_size) (batch_sizes num_rows).
Proof.
  intros Hn. unfold batch_sizes, batch_size.
  pose proof (Z.mod_pos_bound num_rows 100000 ltac:(lia)) as Hmod.
  apply Forall_app; split.
  - apply List.Forall_forall. intros n Hin. apply List.repeat_spec in Hin. lia.
  - destruct (Z.eqb_spec (num_rows mod 100000) 0); repeat constructor; lia.
Qed.

Lemma no_batch_when_nonpositive num_rows :
  num_rows <= 0 -> Py.range 0 num_rows batch_size = [].
Proof.
  intros Hn. unfold Py.range, Py.range_len.
  destruct (Z.ltb_spec 0 num_rows); [lia | reflexivity].
Qed.

(** X4: a row count of 0 or below is not rejected: the run makes no draw
    and no batch, and leaves the header-only file. *)
Theorem nonpositive_row_count_header_only {RandomState} {np : Numpy RandomState}
    filename num_rows (w : World) :
  num_rows <= 0 ->
  create_large_sample_dataset filename num_rows w =
  Ok (tt, mkWorld (rs_seed 42 (rng w))
            (<[filename := [HeaderLine columns]]> (fs w))
            (trace w ++ [EvToCsv filename ModeW true 0])).
Proof.
  intros Hn. unfold create_large_sample_dataset.
  rewrite (no_batch_when_nonpositive num_rows Hn). reflexivity.
Qed.

Section GeneratorFiles.

Context {RandomState : Type} {np : Numpy RandomState}.

Hypothesis randint_length : forall low high size s,
  0 <= size -> length (fst (rs_randint low high size s)) = Z.to_nat size.
Hypothesis choice_length : forall a size s,
  a <> [] -> 0 <= size -> length (fst (rs_choice a size s)) = Z.to_nat size.
Hypothesis lognormal_length : forall mean sigma size s,
  0 <= size -> length (fst (rs_lognormal mean sigma size s)) = Z.to_nat size.

(** X1: the generator replaces the file it is given and touches nothing
    else: every other path keeps its content, and the only events of the
    run are writes to that file. *)
Theorem generator_touches_only_its_file filename num_rows (w : World) :
  exists w' events,
    create_large_sample_dataset filename num_rows w = Ok (tt, w') /\
    (forall path, path <> filename -> fs w' !! path = fs w !! path) /\
    trace w' = trace w ++ events /\
    Forall (writes_to filename) events.
Proof.
  destruct (create_spec randint_length choice_length lognormal_length
              filename num_rows w) as (rows & r' & Hrun & _).
  eexists _, _. split; [exact Hrun |]. cbn [fs trace].
  split; [| split; [reflexivity |]].
  - intros path Hne. now apply lookup_insert_ne.
  - constructor; [now exists ModeW, true, 0 |].
    unfold batch_events. apply List.Forall_map, List.Forall_forall.
    intros s _. now exists ModeA, false, (batch_rows_of num_rows s).
Qed.

(** X3: for a row count N >= 0 the run writes the header once and then
    appends floor(N / 100000) batches of 100,000 rows, followed by one batch
    of N mod 100000 rows when that is not 0; every batch has between 1 and
    100,000 rows. *)
Theorem generator_batch_sizes filename num_rows (w : World) :
  0 <= num_rows ->
  exists w',
    create_large_sample_dataset filename num_rows w = Ok (tt, w') /\
    trace w' = trace w ++ EvToCsv filename ModeW true 0 ::
                 List.map (EvToCsv filename ModeA false)
                   (List.repeat 100000 (Z.to_nat (num_rows / 100000)) ++
                    (if num_rows mod 100000 =? 0 then [] else [num_rows mod 100000])) /\
    Forall (fun n => 1 <= n <= 100000) (batch_sizes num_rows).
Proof.
  intros Hn.
  destruct (create_spec randint_length choice_length lognormal_length
              filename num_rows w) as (rows & r' & Hrun & _).
  eexists. split; [exact Hrun |]. cbn [trace].
  split; [| exact (batch_sizes_bounds num_rows Hn)].
  do 2 f_equal. unfold batch_events.
  rewrite <- (List.map_map (batch_rows_of num_rows) (EvToCsv filename ModeA false)).
  now rewrite batch_rows_list.
Qed.

Hypothesis seed_resets : forall z s1 s2, rs_seed z s1 = rs_seed z s2.

(** X2: running the generator again on its own output changes nothing:
    the second run returns and leaves the file system exactly as the first
    run left it (the file is replaced, not appended to). *)
Theorem generator_rerun_idempotent filename num_rows (w : World) :
  exists w1 w2,
    create_large_sample_dataset filename num_rows w = Ok (tt, w1) /\
    create_large_sample_dataset filename num_rows w1 = Ok (tt, w2) /\
    fs w2 = fs w1.
Proof.
  destruct (create_spec randint_length choice_length lognormal_length
              filename num_rows w) as (rows1 & r1 & Hrun1 & _).
  match type of Hrun1 with _ = Ok (tt, ?w1) =>
    destruct (create_spec randint_length choice_length lognormal_length
                filename num_rows w1) as (rows2 & r2 & Hrun2 & _);
    pose proof (create_same_output seed_resets filename filename num_rows
                  w w1 _ _ Hrun1 Hrun2) as Hsame
  end.
  eexists _, _. split; [exact Hrun1 |]. split; [exact Hrun2 |].
  cbn [fs] in *. rewrite !lookup_insert_eq in Hsame.
  injection Hsame as Hrows. rewrite insert_insert_eq.
  now rewrite Hrows.
Qed.

End GeneratorFiles.

(** ** The generator: the drawn labels *)

Lemma zip_rows_labels c1 c2 c3 c4 c5 c6 c7 c8 c9 :
  forall rows,
    zip_rows c1 c2 c3 c4 c5 c6 c7 c8 c9 = Some rows ->
    List.map ProductName rows = c4 /\
    List.map Category rows = c5 /\
    List.map Region rows = c9.
Proof.
  revert c2 c3 c4 c5 c6 c7 c8 c9.
  induction c1 as [| x1 c1 IH]; intros c2 c3 c4 c5 c6 c7 c8 c9 rows Hz.
  - destruct c2; [| discriminate Hz]. destruct c3; [| discriminate Hz].
    destruct c4; [| discriminate Hz]. destruct c5; [| discriminate Hz].
    destruct c6; [| discriminate Hz]. destruct c7; [| discriminate Hz].
    destruct c8; [| discriminate Hz]. destruct c9; [| discriminate Hz].
    injection Hz as <-. repeat split.
  - destruct c2; [discriminate Hz |]. destruct c3; [discriminate Hz |].
    destruct c4; [discriminate Hz |]. destruct c5; [discriminate Hz |].
    destruct c6; [discriminate Hz |]. destruct c7; [discriminate Hz |].
    destruct c8; [discriminate Hz |]. destruct c9; [discriminate Hz |].
    cbn [zip_rows] in Hz.
    destruct (zip_rows c1 c2 c3 c4 c5 c6 c7 c8 c9) as [rows' |] eqn:Hz';
      [| discriminate Hz].
    injection Hz as <-. destruct (IH _ _ _ _ _ _ _ _ _ Hz') as (E4 & E5 & E9).
    cbn [List.map ProductName Category Region]. repeat split; congruence.
Qed.

Lemma product_name_form (s : string) :
  In s product_names ->
  exists k, 1 <= k <= 1000 /\ s = ("Product_" +:+ pretty k)%string.
Proof.
  unfold product_names, Py.range. intros Hin.
  apply List.in_map_iff in Hin as (k & <- & Hk).
  apply List.in_map_iff in Hk as (i & <- & Hi).
  apply List.in_seq in Hi. change (Py.range_len 1 1001 1) with 1000%nat in Hi.
  eexists. split; [| reflexivity]. lia.
Qed.

Section GeneratorLabels.

Context {RandomState : Type} {np : Numpy RandomState}.

Hypothesis choice_within : choice_draws_from_pool.

(** A batch keeps the file's rows labelled from the pools. *)
Lemma batch_body_keeps_labels filename num_rows batch_start (w w' : World) :
  batch_body filename num_rows batch_start w = Ok (tt, w') ->
  Forall (line_ok labels_from_pools) (default [] (fs w !! filename)) ->
  Forall (line_ok labels_from_pools) (default [] (fs w' !! filename)).
Proof.
  unfold batch_body, bind, floordiv.
  destruct (_ =? 0); [discriminate |].
  unfold ret, draw. cbn [rng fs trace].
  set (n := Z.min (batch_start + batch_size) num_rows - batch_start).
  destruct (rs_randint 1000 9999 n (rng w)) as [c3 s3]. cbn [rng fs trace].
  assert (Hnames : product_names <> [])
    by (intros E; pose proof product_names_length as P; rewrite E in P;
        discriminate P).
  pose proof (choice_within product_names n s3 Hnames) as C4.
  destruct (rs_choice product_names n s3) as [c4 s4]. cbn [fst rng fs trace] in *.
  pose proof (choice_within categories n s4 ltac:(discriminate)) as C5.
  destruct (rs_choice categories n s4) as [c5 s5]. cbn [fst rng fs trace] in *.
  destruct (rs_lognormal 3 1 n s5) as [c6 s6]. cbn [rng fs trace].
  destruct (rs_randint 1 10 n s6) as [c7 s7]. cbn [rng fs trace].
  destruct (rs_randint 10000 99999 n s7) as [c8 s8]. cbn [rng fs trace].
  pose proof (choice_within regions n s8 ltac:(discriminate)) as C9.
  destruct (rs_choice regions n s8) as [c9 s9]. cbn [fst rng fs trace] in *.
  unfold DataFrame. cbn [bd_TransactionID bd_OrderDate bd_ProductID
    bd_ProductName bd_Category bd_Price bd_Quantity bd_CustomerID bd_Region].
  destruct (zip_rows _ _ _ _ _ _ _ _ _) as [rows |] eqn:Hz; [| discriminate].
  destruct (zip_rows_labels _ _ _ _ _ _ _ _ _ _ Hz) as (E4 & E5 & E9).
  unfold ret, to_csv, csv_lines. cbn [rng fs trace df_rows app].
  intros Hrun Hold. injection Hrun as <-. cbn [fs].
  rewrite lookup_insert_eq. cbn [default].
  apply Forall_app; split; [exact Hold |].
  apply data_lines_ok. subst c4 c5 c9.
  rewrite List.Forall_map in C4, C5, C9.
  rewrite List.Forall_forall in *. intros r Hr.
  repeat split; auto.
Qed.

Lemma batch_loop_keeps_labels filename num_rows (starts : list Z) :
  forall w w' : World,
    for_each starts (batch_body filename num_rows) w = Ok (tt, w') ->
    Forall (line_ok labels_from_pools) (default [] (fs w !! filename)) ->
    Forall (line_ok labels_from_pools) (default [] (fs w' !! filename)).
Proof.
  induction starts as [| s starts IH]; intros w w' Hrun Hold.
  - cbn in Hrun. unfold ret in Hrun. injection Hrun as <-. exact Hold.
  - cbn [for_each] in Hrun. unfold bind in Hrun.
    destruct (batch_body filename num_rows s w) as [[[] w1] |] eqn:Hstep;
      [| discriminate].
    exact (IH _ _ Hrun (batch_body_keeps_labels _ _ _ _ _ Hstep Hold)).
Qed.

Hypothesis randint_length : forall low high size s,
  0 <= size -> length (fst (rs_randint low high size s)) = Z.to_nat size.
Hypothesis choice_length : forall a size s,
  a <> [] -> 0 <= size -> length (fst (rs_choice a size s)) = Z.to_nat size.
Hypothesis lognormal_length : forall mean sigma size s,
  0 <= size -> length (fst (rs_lognormal mean sigma size s)) = Z.to_nat size.

(** X5: in every row of the generated file the Category is one of the 10
    categories, the Region one of the 5 regions, and the ProductName one of
    the 1000 names Product_1 .. Product_1000. *)
Theorem labels_come_from_the_pools filename num_rows (w : World) :
  exists w' file,
    create_large_sample_dataset filename num_rows w = Ok (tt, w') /\
    fs w' !! filename = Some file /\
    Forall (fun r => In (Category r) categories /\
                     In (Region r) regions /\
                     exists k, 1 <= k <= 1000 /\
                               ProductName r = ("Product_" +:+ pretty k)%string)
      (data_rows file).
Proof.
  destruct (create_file randint_length choice_length lognormal_length
              filename num_rows w) as (w' & rows & Hrun & Hfile & _).
  exists w', (HeaderLine columns :: List.map DataLine rows).
  split; [exact Hrun |]. split; [exact Hfile |].
  assert (Hok : Forall (line_ok labels_from_pools)
                  (HeaderLine columns :: List.map DataLine rows)).
  { pose proof Hrun as Hrun'.
    unfold create_large_sample_dataset, bind at 1, draw in Hrun'.
    unfold bind at 1, to_csv in Hrun'. cbn [rng fs trace] in Hrun'.
    pose proof (batch_loop_keeps_labels _ _ _ _ _ Hrun') as Hkeep.
    cbn [fs] in Hkeep. rewrite lookup_insert_eq in Hkeep.
    assert (E : fs w' !! filename = Some (HeaderLine columns :: List.map DataLine rows))
      by exact Hfile.
    rewrite E in Hkeep. apply Hkeep. repeat constructor. }
  apply data_rows_ok in Hok.
  eapply List.Forall_impl; [| exact Hok].
  intros r (Hp & Hc & Hr). repeat split; trivial.
  now apply product_name_form.
Qed.

End GeneratorLabels.

(** ** The generator: the row at a given position *)

(** Reading position [o] of chunk [x] behind chunks of [c] elements each. *)
Lemma nth_flat_map_chunk {A B} (F : A -> list B) (c : nat) (l : list A)
    (x : A) (rest : list A) (o : nat) (d : B) :
  Forall (fun y => length (F y) = c) l ->
  (o < length (F x))%nat ->
  nth (length l * c + o) (flat_map F (l ++ x :: rest)) d = nth o (F x) d.
Proof.
  intros Hl Ho. induction Hl as [| y l Hy _ IH].
  - cbn [length app flat_map Nat.mul Nat.add]. now apply List.app_nth1.
  - cbn [length app flat_map].
    replace (S (length l) * c + o)%nat with (length (F y) + (length l * c + o))%nat
      by (rewrite Hy; lia).
    rewrite List.app_nth2_plus. exact IH.
Qed.

Lemma seq_split_at (b k : nat) :
  (b < k)%nat -> seq 0 k = seq 0 b ++ b :: seq (S b) (k - b - 1).
Proof.
  intros Hb. replace k with (b + S (k - b - 1))%nat at 1 by lia.
  rewrite List.seq_app. reflexivity.
Qed.

(** The date at position [j] of the concatenated batches. *)
Lemma order_date_at num_rows (j : Z) :
  0 <= j < num_rows ->
  nth (Z.to_nat j)
    (flat_map (batch_dates num_rows) (Py.range 0 num_rows batch_size)) 0 =
  date_2020_01_01 +
  (j mod 100000) * hours_per_batch_of num_rows (j / 100000 * 100000).
Proof.
  intros Hj. unfold Py.range, Py.range_len, batch_size.
  destruct (Z.ltb_spec 0 num_rows) as [_ | ?]; [| lia].
  pose proof (Z.div_mod j 100000 ltac:(lia)) as Hdm.
  pose proof (Z.mod_pos_bound j 100000 ltac:(lia)) as Hmod.
  assert (Hq : 0 <= j / 100000) by (apply Z.div_pos; lia).
  assert (Hqk : j / 100000 <= (num_rows - 0 - 1) / 100000)
    by (apply Z.div_le_mono; lia).
  set (q := j / 100000) in *. set (o := j mod 100000) in *.
  set (g := fun i : nat => 0 + Z.of_nat i * 100000).
  rewrite (seq_split_at (Z.to_nat q)) by lia.
  rewrite List.map_app. cbn [List.map].
  replace (Z.to_nat j)
    with (length (List.map g (seq 0 (Z.to_nat q))) * Z.to_nat 100000 + Z.to_nat o)%nat
    by (rewrite List.length_map, List.length_seq; lia).
  assert (Hstart : g (Z.to_nat q) = q * 100000) by (unfold g; lia).
  assert (Hrows : o < batch_rows_of num_rows (q * 100000))
    by (unfold batch_rows_of, batch_end_of, batch_size; lia).
  rewrite nth_flat_map_chunk.
  - rewrite Hstart. unfold batch_dates. rewrite date_range_nth by lia. reflexivity.
  - apply List.Forall_forall. intros s Hs.
    apply List.in_map_iff in Hs as (i & <- & Hi). apply List.in_seq in Hi.
    unfold batch_dates, date_range. rewrite List.length_map, List.length_seq.
    f_equal. unfold g, batch_rows_of, batch_end_of, batch_size. lia.
  - rewrite Hstart. unfold batch_dates, date_range.
    rewrite List.length_map, List.length_seq. lia.
Qed.

Section GeneratorRows.

Context {RandomState : Type} {np : Numpy RandomState}.

Hypothesis randint_length : forall low high size s,
  0 <= size -> length (fst (rs_randint low high size s)) = Z.to_nat size.
Hypothesis choice_length : forall a size s,
  a <> [] -> 0 <= size -> length (fst (rs_choice a size s)) = Z.to_nat size.
Hypothesis lognormal_length : forall mean sigma size s,
  0 <= size -> length (fst (rs_lognormal mean sigma size s)) = Z.to_nat size.

(** X6: the data row at position j (from 0) of the generated file has
    TransactionID j + 1, and its OrderDate is 2020-01-01 plus
    (j mod 100000) steps of its batch, the batch that starts at row
    100000 * floor(j / 100000). *)
Theorem row_at_position filename num_rows (j : Z) (w : World) :
  0 <= j < num_rows ->
  exists w' file,
    create_large_sample_dataset filename num_rows w = Ok (tt, w') /\
    fs w' !! filename = Some file /\
    nth (Z.to_nat j) (List.map TransactionID (data_rows file)) 0 = j + 1 /\
    nth (Z.to_nat j) (List.map OrderDate (data_rows file)) 0 =
      date_2020_01_01 +
      (j mod 100000) * hours_per_batch_of num_rows (j / 100000 * 100000).
Proof.
  intros Hj.
  destruct (create_file randint_length choice_length lognormal_length
              filename num_rows w) as (w' & rows & Hrun & Hfile & _ & Hid & Hdt & _).
  exists w', (HeaderLine columns :: List.map DataLine rows).
  rewrite data_rows_of_lines, Hid, Hdt.
  split; [exact Hrun |]. split; [exact Hfile |].
  split; [| now apply order_date_at].
  change (nth (Z.to_nat j) (List.map Z.of_nat (seq 1 (Z.to_nat num_rows)))
            (Z.of_nat 0) = j + 1).
  rewrite List.map_nth, List.seq_nth by lia. lia.
Qed.

End GeneratorRows.

(** ** The demo orchestrator: files and processes *)

Lemma nth_error_pairs {A X} (a b : A) (l : list X) (tail : list A) :
  forall m,
    nth_error (flat_map (fun _ => [a; b]) l ++ tail) m =
    if (m <? 2 * length l)%nat
    then Some (if Nat.even m then a else b)
    else nth_error tail (m - 2 * length l).
Proof.
  induction l as [| x l IH]; intros m.
  - cbn [flat_map app length Nat.mul]. now rewrite Nat.sub_0_r.
  - cbn [flat_map app length].
    replace (2 * S (length l))%nat with (S (S (2 * length l))) by lia.
    destruct m as [| [| m]]; [reflexivity | reflexivity |].
    cbn [nth_error]. rewrite IH. reflexivity.
Qed.

Section DemoProcesses.

Context {RandomState : Type} {np : Numpy RandomState}.
Variable sys_executable : string.

(** A batch that returns has appended one write to the trace. *)
Lemma batch_body_trace filename num_rows batch_start (w w' : World) :
  batch_body filename num_rows batch_start w = Ok (tt, w') ->
  exists e, writes_to filename e /\ trace w' = trace w ++ [e].
Proof.
  unfold batch_body, bind, floordiv.
  destruct (_ =? 0); [intros H; discriminate H |].
  unfold ret, draw. cbn [rng fs trace].
  repeat match goal with
         | |- context [let (_, _) := ?d in _] => destruct d; cbn [rng fs trace]
         end.
  unfold DataFrame. destruct (zip_rows _ _ _ _ _ _ _ _ _); [| intros H; discriminate H].
  unfold ret, to_csv. cbn [rng fs trace]. intros H. injection H as <-.
  eexists. split; [| reflexivity]. eexists _, _, _. reflexivity.
Qed.

Lemma batch_loop_trace filename num_rows (starts : list Z) :
  forall w w' : World,
    for_each starts (batch_body filename num_rows) w = Ok (tt, w') ->
    exists events, Forall (writes_to filename) events /\ trace w' = trace w ++ events.
Proof.
  induction starts as [| s starts IH]; intros w w'.
  - cbn. unfold ret. intros H. injection H as <-. exists []. split; [constructor |].
    now rewrite List.app_nil_r.
  - cbn [for_each]. unfold bind.
    destruct (batch_body filename num_rows s w) as [[[] w1] | e] eqn:Hb;
      [| intros H; discriminate H].
    intros H. apply batch_body_trace in Hb as (e & He & Ht).
    apply IH in H as (events & Hev & Ht').
    exists (e :: events). split; [constructor; assumption |].
    rewrite Ht', Ht, <- List.app_assoc. reflexivity.
Qed.

(** A generator run that returns has only appended writes to its file. *)
Lemma create_trace filename num_rows (w w' : World) :
  create_large_sample_dataset filename num_rows w = Ok (tt, w') ->
  exists events, Forall (writes_to filename) events /\ trace w' = trace w ++ events.
Proof.
  unfold create_large_sample_dataset. unfold bind at 1, draw.
  unfold bind at 1, to_csv. cbn [rng fs trace]. intros H.
  apply batch_loop_trace in H as (events & Hev & Ht). cbn [trace] in Ht.
  exists (EvToCsv filename ModeW true (Z.of_nat (length (df_rows (DataFrame_empty columns)))) :: events).
  split; [constructor; [eexists _, _, _; reflexivity | exact Hev] |].
  rewrite Ht, <- List.app_assoc. reflexivity.
Qed.

(** The first block of the demo returns the dataset to use and has at
    most written the default dataset. *)
Lemma ensure_dataset_trace csv_file (w w1 : World) (s : string) :
  ensure_dataset csv_file w = Ok (s, w1) ->
  s = (if Py.falsy csv_file then "sales_data_1m.csv"%string
       else default ""%string csv_file) /\
  exists writes,
    Forall (writes_to "sales_data_1m.csv") writes /\ trace w1 = trace w ++ writes.
Proof.
  unfold ensure_dataset. destruct (Py.falsy csv_file).
  - unfold bind at 1, path_exists.
    destruct (negb _).
    + unfold bind at 1.
      destruct (create_large_sample_dataset _ _ w) as [[[] w2] | e] eqn:Hc;
        [| intros H; discriminate H].
      unfold ret. intros H. injection H as <- <-. split; [reflexivity |].
      exact (create_trace _ _ _ _ Hc).
    + unfold bind, ret. intros H. injection H as <- <-. split; [reflexivity |].
      exists []. split; [constructor | now rewrite List.app_nil_r].
  - unfold ret. intros H. injection H as <- <-. split; [reflexivity |].
    exists []. split; [constructor | now rewrite List.app_nil_r].
Qed.

(** The processes of a demo run: the server first, then the workers at
    the even positions from 2 on. *)
Lemma popen_positions csv_file num_workers outcome base (q : nat) argv :
  nth_error (demo_events sys_executable csv_file num_workers outcome base) q =
    Some (EvPopen argv) <->
  (q = 0%nat /\
   argv = [sys_executable; "distributed_sales_system.py"; "server"; csv_file]%string) \/
  ((exists i, (i < Z.to_nat num_workers)%nat /\ q = (2 + 2 * i)%nat) /\
   argv = [sys_executable; "distributed_sales_system.py"; "worker"]%string).
Proof.
  unfold demo_events. rewrite range_unit_length, Z.sub_0_r.
  set (k := Z.to_nat num_workers).
  assert (Hk : length (Py.range 0 num_workers 1) = k)
    by (rewrite range_unit_length; unfold k; f_equal; lia).
  destruct q as [| [| m]].
  - cbn. split.
    + intros H. injection H as <-. left. split; reflexivity.
    + intros [[_ ->] | [(i & _ & H) _]]; [reflexivity | lia].
  - cbn. split; [intros H; discriminate H |].
    intros [[H _] | [(i & _ & H) _]]; lia.
  - cbn [app nth_error]. rewrite nth_error_pairs, Hk.
    destruct (Nat.ltb_spec m (2 * k)) as [Hlt | Hge].
    + destruct (Nat.even m) eqn:Hev.
      * split.
        -- intros H. injection H as <-. right. split; [| reflexivity].
           apply Nat.even_spec in Hev as [i ->]. exists i. lia.
        -- intros [[H _] | [_ ->]]; [lia | reflexivity].
      * split; [intros H; discriminate H |].
        intros [[H _] | [(i & _ & Hq) _]]; [lia |].
        assert (Hm : m = (2 * i)%nat) by lia.
        rewrite Hm, Nat.even_mul in Hev. discriminate Hev.
    + split; [| intros [[H _] | [(i & Hi & Hq) _]]; lia].
      intros H. apply List.nth_error_In in H.
      cbn [app] in H. destruct H as [H | H]; [discriminate H |].
      apply List.in_app_iff in H as [H | H].
      * apply List.in_map_iff in H as (i & H & _). discriminate H.
      * destruct H as [H | H]; [discriminate H |].
        destruct outcome as [| []]; cbn in H;
          repeat (destruct H as [H | H]; [discriminate H |]); contradiction.
Qed.

(** The processes a demo run terminates. *)
Lemma terminated_handles csv_file num_workers outcome base (p : nat) :
  In (EvTerminate p) (demo_events sys_executable csv_file num_workers outcome base) <->
  (exists i, (i < Z.to_nat num_workers)%nat /\ p = (base + 2 + 2 * i)%nat) \/
  (p = base /\ outcome = Interrupted true).
Proof.
  unfold demo_events. rewrite range_unit_length, Z.sub_0_r.
  set (k := Z.to_nat num_workers).
  cbn [app]. split.
  - intros [H | [H | H]]; [discriminate H | discriminate H |].
    apply List.in_app_iff in H as [H | H].
    { apply List.in_flat_map in H as (x & _ & [H | [H | []]]); discriminate H. }
    destruct H as [H | H]; [discriminate H |].
    apply List.in_app_iff in H as [H | H].
    { apply List.in_map_iff in H as (i & H & Hi). apply List.in_seq in Hi.
      injection H as <-. left. exists i. lia. }
    destruct H as [H | H]; [discriminate H |].
    destruct outcome as [| []]; cbn in H; try contradiction.
    destruct H as [H | []]. injection H as <-. right. split; reflexivity.
  - intros H. right. right. apply List.in_app_iff. right. right.
    apply List.in_app_iff.
    destruct H as [(i & Hi & ->) | (-> & ->)].
    + left. apply List.in_map_iff. exists i. split; [reflexivity |].
      apply List.in_seq. lia.
    + right. right. left. reflexivity.
Qed.

(** X8: unless no path is given and the default dataset is missing, a demo
    run returns normally, writes no file (the file system and the generator
    state are as before), and consists of the process events alone, on the
    given path or on the default one. *)
Theorem demo_leaves_files_alone csv_file num_workers outcome (w : World) :
  Py.falsy csv_file = false \/ is_Some (fs w !! "sales_data_1m.csv"%string) ->
  run_demo_with_multiple_workers sys_executable csv_file num_workers outcome w =
  Ok (tt, mkWorld (rng w) (fs w)
            (trace w ++
             demo_events sys_executable
               (if Py.falsy csv_file then "sales_data_1m.csv"%string
                else default ""%string csv_file)
               num_workers outcome (length (trace w)))).
Proof.
  intros H. rewrite run_demo_spec. unfold ensure_dataset.
  destruct (Py.falsy csv_file) eqn:Hf; [| reflexivity].
  destruct H as [H | H]; [discriminate H |].
  unfold bind at 1. unfold path_exists.
  rewrite (bool_decide_eq_true_2 _ H). reflexivity.
Qed.

(** X9: in a demo run that returns, what the run appends to the trace is
    the writes of the default dataset, if it had to be generated, followed
    by the process events. Counting from the start of the run, the only
    processes started are the server, first, on the dataset in use, and
    max(0, num_workers) workers after it; the only processes terminated
    are these workers, each by the handle Popen returned for it, and the
    server when, and only when, the wait was interrupted while it was
    still running. *)
Theorem demo_terminates_exactly_its_workers csv_file num_workers outcome
    (w w' : World) :
  run_demo_with_multiple_workers sys_executable csv_file num_workers outcome w =
    Ok (tt, w') ->
  exists writes,
    let dataset := if Py.falsy csv_file then "sales_data_1m.csv"%string
                   else default ""%string csv_file in
    let base := length (trace w ++ writes) in
    let worker := fun p : nat =>
      exists i, (i < Z.to_nat num_workers)%nat /\ p = (base + 2 + 2 * i)%nat in
    Forall (writes_to "sales_data_1m.csv") writes /\
    trace w' = trace w ++ writes ++
               demo_events sys_executable dataset num_workers outcome base /\
    (forall p argv,
       (length (trace w) <= p)%nat ->
       (nth_error (trace w') p = Some (EvPopen argv) <->
        (p = base /\
         argv = [sys_executable; "distributed_sales_system.py"; "server";
                 dataset]%string) \/
        (worker p /\
         argv = [sys_executable; "distributed_sales_system.py"; "worker"]%string))) /\
    (forall p,
       (exists q, (length (trace w) <= q)%nat /\
                  nth_error (trace w') q = Some (EvTerminate p)) <->
       worker p \/ (p = base /\ outcome = Interrupted true)).
Proof.
  rewrite run_demo_spec.
  destruct (ensure_dataset csv_file w) as [[s w1] | e] eqn:He; [| discriminate].
  intros H. injection H as <-. cbn [trace].
  apply ensure_dataset_trace in He as (-> & writes & Hw & Ht).
  exists writes. cbn zeta. rewrite Ht, <- List.app_assoc.
  set (dataset := if Py.falsy csv_file then _ else _).
  set (base := length (trace w ++ writes)).
  set (events := demo_events sys_executable dataset num_workers outcome base).
  assert (Hbase : base = (length (trace w) + length writes)%nat)
    by (unfold base; now rewrite List.length_app).
  split; [exact Hw |]. split; [reflexivity |].
  assert (Hnth : forall p e, (length (trace w) <= p)%nat ->
            ((forall m h n, e <> EvToCsv "sales_data_1m.csv" m h n) ->
             nth_error (trace w ++ writes ++ events) p = Some e <->
             (base <= p)%nat /\ nth_error events (p - base) = Some e)).
  { intros p e Hp Hne. rewrite List.nth_error_app2 by exact Hp.
    destruct (Nat.lt_ge_cases (p - length (trace w)) (length writes)) as [Hlt | Hge].
    - rewrite List.nth_error_app1 by exact Hlt. split.
      + intros Hq. apply List.nth_error_In in Hq.
        rewrite List.Forall_forall in Hw. destruct (Hw e Hq) as (m & h & n & ->).
        now destruct (Hne m h n).
      + intros [Hb _]. lia.
    - rewrite List.nth_error_app2 by exact Hge.
      replace (p - length (trace w) - length writes)%nat with (p - base)%nat by lia.
      split; [intros Hq; split; [lia | exact Hq] | intros [_ Hq]; exact Hq]. }
  split.
  - intros p argv Hp. rewrite (Hnth p _ Hp) by (intros; discriminate).
    unfold events. rewrite popen_positions. split.
    + intros [Hb [[Hq ->] | [(i & Hi & Hq) ->]]].
      * left. split; [lia | reflexivity].
      * right. split; [exists i; split; [exact Hi | lia] | reflexivity].
    + intros [[-> ->] | [(i & Hi & ->) ->]].
      * split; [lia |]. left. split; [lia | reflexivity].
      * split; [lia |]. right. split; [exists i; split; [exact Hi | lia] | reflexivity].
  - intros p.
    rewrite <- (terminated_handles dataset num_workers outcome base p).
    fold events. split.
    + intros (q & Hq & Hn). apply (Hnth q _ Hq) in Hn as [_ Hn]; [| intros; discriminate].
      exact (List.nth_error_In _ _ Hn).
    + intros Hin. apply List.In_nth_error in Hin as (q & Hq).
      exists (base + q)%nat. split; [lia |].
      apply (Hnth (base + q)%nat (EvTerminate p)); [lia | intros; discriminate |].
      split; [lia |]. now replace (base + q - base)%nat with q by lia.
Qed.

End DemoProcesses.

(** ** The command line *)

Lemma lower_ascii_idempotent (c : ascii) :
  Py.lower_ascii (Py.lower_ascii c) = Py.lower_ascii c.
Proof. destruct c as [[] [] [] [] [] [] [] []]; reflexivity. Qed.

Lemma lower_idempotent (s : string) : Py.lower (Py.lower s) = Py.lower s.
Proof.
  induction s as [| c s IH]; [reflexivity |].
  cbn [Py.lower]. now rewrite lower_ascii_idempotent, IH.
Qed.

Section CommandLine.

Context {RandomState : Type} {np : Numpy RandomState}.
Variable sys_executable : string.

(** X10: without a subcommand, or with one that is none of the five known
    ones (compared in lower case), [main] returns normally and does
    nothing: no file is written, no process is started. *)
Theorem main_ignores_unknown_commands (argv : list string) outcome (w : World) :
  (length argv < 2)%nat \/
  (ascii_only (nth 1 argv ""%string) /\
   ~ In (Py.lower (nth 1 argv ""%string)) known_commands) ->
  main sys_executable argv outcome w = Ok (tt, w).
Proof.
  intros H. unfold main.
  destruct (Nat.ltb_spec (length argv) 2) as [_ | Hlen]; [reflexivity |].
  destruct H as [H | [_ H]]; [lia |].
  repeat match goal with
         | |- context [decide (?a = ?b)] =>
             destruct (decide (a = b)) as [E | _];
             [exfalso; apply H; rewrite E; cbn; tauto |]
         end.
  reflexivity.
Qed.

(** X11: the subcommand is matched without regard to case, and the
    arguments after it are passed on as they are. *)
Theorem main_command_is_case_insensitive prog command (rest : list string)
    outcome (w : World) :
  ascii_only command ->
  main sys_executable (prog :: command :: rest) outcome w =
  main sys_executable (prog :: Py.lower command :: rest) outcome w.
Proof.
  intros _. unfold main. cbn [length nth].
  now rewrite lower_idempotent.
Qed.

(** [main] on the [demo] subcommand. *)
Lemma main_demo prog command (rest : list string) outcome (w : World) :
  Py.lower command = "demo"%string ->
  main sys_executable (prog :: command :: rest) outcome w =
  run_demo_with_multiple_workers sys_executable
    (Some (hd "sales_data_1m.csv"%string rest)) 3 outcome w.
Proof.
  intros Hcmd. unfold main. cbn [length nth]. rewrite Hcmd.
  destruct (decide ("demo"%string = "create_small"%string)) as [E | _];
    [discriminate E |].
  destruct (decide ("demo"%string = "create_large"%string)) as [E | _];
    [discriminate E |].
  destruct (decide ("demo"%string = "demo"%string)) as [_ | E];
    [| contradiction].
  destruct rest; reflexivity.
Qed.

(** X12: through the [demo] subcommand, with no path argument or with a
    non-empty one, nothing is ever generated: the run leaves the file system
    as it is, whether the dataset exists or not, and starts the server on
    the given path, or on sales_data_1m.csv, with 3 workers. *)
Theorem cli_demo_writes_no_file prog command (rest : list string) outcome
    (w : World) :
  Py.lower command = "demo"%string ->
  hd "sales_data_1m.csv"%string rest <> ""%string ->
  main sys_executable (prog :: command :: rest) outcome w =
  Ok (tt, mkWorld (rng w) (fs w)
            (trace w ++ demo_events sys_executable
                          (hd "sales_data_1m.csv"%string rest) 3 outcome
                          (length (trace w)))).
Proof.
  intros Hcmd Hpath. rewrite (main_demo _ _ _ _ _ Hcmd).
  now rewrite run_demo_explicit_path.
Qed.

Hypothesis randint_length : forall low high size s,
  0 <= size -> length (fst (rs_randint low high size s)) = Z.to_nat size.
Hypothesis choice_length : forall a size s,
  a <> [] -> 0 <= size -> length (fst (rs_choice a size s)) = Z.to_nat size.
Hypothesis lognormal_length : forall mean sigma size s,
  0 <= size -> length (fst (rs_lognormal mean sigma size s)) = Z.to_nat size.

(** X13: an empty path argument counts as no path: [demo ""] is the one
    way to the generator from the command line. When sales_data_1m.csv is
    missing it is generated, with 1,000,000 rows, before the server is
    started on it. *)
Theorem cli_demo_with_empty_path_generates prog command (rest : list string)
    outcome (w : World) :
  Py.lower command = "demo"%string ->
  fs w !! "sales_data_1m.csv"%string = None ->
  exists w1 w' rows,
    create_large_sample_dataset "sales_data_1m.csv" 1000000 w = Ok (tt, w1) /\
    main sys_executable (prog :: command :: ""%string :: rest) outcome w = Ok (tt, w') /\
    fs w' !! "sales_data_1m.csv"%string =
      Some (HeaderLine columns :: List.map DataLine rows) /\
    Z.of_nat (length rows) = 1000000 /\
    trace w' = trace w1 ++ demo_events sys_executable "sales_data_1m.csv" 3 outcome
                             (length (trace w1)).
Proof.
  intros Hcmd Hmissing.
  destruct (create_file randint_length choice_length lognormal_length
              "sales_data_1m.csv" 1000000 w)
    as (w1 & rows & Hrun & Hfile & _ & Hid & _).
  exists w1, (mkWorld (rng w1) (fs w1)
                (trace w1 ++ demo_events sys_executable "sales_data_1m.csv" 3 outcome
                               (length (trace w1)))), rows.
  split; [exact Hrun |]. split; [| split; [exact Hfile | split; [| reflexivity]]].
  - rewrite (main_demo _ _ _ _ _ Hcmd). cbn [hd].
    rewrite run_demo_spec.
    change (ensure_dataset (Some ""%string) w)
      with (bind (path_exists "sales_data_1m.csv")
              (fun present =>
                 bind (if negb present
                       then create_large_sample_dataset "sales_data_1m.csv" 1000000
                       else ret tt)
                      (fun _ => ret "sales_data_1m.csv"%string)) w).
    unfold bind at 1. unfold path_exists.
    assert (Hno : bool_decide (is_Some (fs w !! "sales_data_1m.csv"%string)) = false).
    { apply bool_decide_eq_false_2. intros [x Hx]. congruence. }
    rewrite Hno. cbn [negb]. unfold bind at 1. rewrite Hrun. reflexivity.
  - rewrite <- (List.length_map TransactionID), Hid.
    rewrite List.length_map, List.length_seq. lia.
Qed.

End CommandLine.

(** ** The generator and the revenue aggregator together *)

Lemma test_script_on_schema_file {RandomState : Type} (alg : SumAlgorithm)
    (w : @World RandomState) (rows : list Row) :
  fs w !! "sales_data_5m.csv"%string =
    Some (HeaderLine columns :: List.map DataLine rows) ->
  exists total, test_script alg w = Ok (total, w).
Proof.
  intros Hfile. unfold test_script, bind, read_csv.
  destruct (fs w !! "sales_data_5m.csv"%string) as [f |]; [| discriminate].
  injection Hfile as ->. rewrite mapM_data_lines.
  unfold select_Price_Quantity. cbn [df_columns df_rows].
  destruct (decide _) as [_ | Hn].
  - eexists. reflexivity.
  - exfalso. apply Hn. unfold columns. split; set_solver.
Qed.

Lemma test_script_without_file {RandomState : Type} (alg : SumAlgorithm)
    (w : @World RandomState) :
  fs w !! "sales_data_5m.csv"%string = None ->
  test_script alg w = Raise FileNotFoundError.
Proof.
  intros Hnone. unfold test_script, bind, read_csv.
  destruct (fs w !! "sales_data_5m.csv"%string); [discriminate | reflexivity].
Qed.

Section GeneratorAndAggregator.

Context {RandomState : Type} {np : Numpy RandomState}.
Variable sys_executable : string.

Hypothesis randint_length : forall low high size s,
  0 <= size -> length (fst (rs_randint low high size s)) = Z.to_nat size.
Hypothesis choice_length : forall a size s,
  a <> [] -> 0 <= size -> length (fst (rs_choice a size s)) = Z.to_nat size.
Hypothesis lognormal_length : forall mean sigma size s,
  0 <= size -> length (fst (rs_lognormal mean sigma size s)) = Z.to_nat size.

(** X14: [create_large] prepares the input of [test.py]: it writes the
    file the script opens, under the header the script selects Price and
    Quantity from, so that the script, run afterwards with either [sum],
    finishes with a total and changes no file. *)
Theorem create_large_feeds_test_script prog outcome alg (w : World) :
  exists w' total,
    main sys_executable [prog; "create_large"%string] outcome w = Ok (tt, w') /\
    test_script alg w' = Ok (total, w').
Proof.
  destruct (create_file randint_length choice_length lognormal_length
              "sales_data_5m.csv" 5000000 w)
    as (w' & rows & Hrun & Hfile & _).
  destruct (test_script_on_schema_file alg w' rows Hfile) as [total Htest].
  exists w', total. split; [exact Hrun | exact Htest].
Qed.

(** X15: [create_small] does not prepare [test.py]: the script reads
    sales_data_5m.csv, which [create_small] does not write, so from a world
    without that file the script fails with FileNotFoundError. *)
Theorem create_small_does_not_feed_test_script prog outcome alg (w : World) :
  fs w !! "sales_data_5m.csv"%string = None ->
  exists w',
    main sys_executable [prog; "create_small"%string] outcome w = Ok (tt, w') /\
    test_script alg w' = Raise FileNotFoundError.
Proof.
  intros Hnone.
  destruct (create_spec randint_length choice_length lognormal_length
              "sales_data_1m.csv" 1000000 w) as (rows & r' & Hrun & _).
  eexists. split; [exact Hrun |].
  apply test_script_without_file. cbn [fs].
  rewrite lookup_insert_ne by discriminate. exact Hnone.
Qed.

End GeneratorAndAggregator.

(** ** The requirements check *)

(** X16: [check_requirements] returns True exactly when pandas and numpy
    both import; otherwise it returns False and its last line is the pip
    command that names the packages that failed to import, in the order
    pandas, numpy. It prints one line per package before that. *)
Theorem check_requirements_reports_missing (importable : string -> bool) :
  let missing := List.filter (fun p => negb (importable p)) ["pandas"; "numpy"]%string in
  (snd (check_requirements importable) = true <-> missing = []) /\
  (snd (check_requirements importable) = false ->
   List.last (fst (check_requirements importable)) ""%string =
     ("pip install " +:+ String.concat " " missing)%string) /\
  firstn 2 (fst (check_requirements importable)) =
    List.map (fun p => if importable p
                       then ("✓ " +:+ p +:+ " is installed")%string
                       else ("✗ " +:+ p +:+ " is missing")%string)
      ["pandas"; "numpy"]%string.
Proof.
  unfold check_requirements. cbn [check_packages List.filter List.map].
  destruct (importable "pandas"%string), (importable "numpy"%string);
    cbn [negb app fst snd List.last firstn];
    (split; [split; [reflexivity || discriminate | reflexivity || discriminate] |]);
    (split; [reflexivity || discriminate | reflexivity]).
Qed.

(** X17: run through the script, the check cannot report a missing
    package: either the script fails to load, because one of its own
    imports fails, or pandas and numpy both import and the check prints
    the three success lines and returns True. *)
Theorem check_subcommand_never_reports_missing (importable : string -> bool) :
  run_check importable = ImportFailed \/
  run_check importable =
    Ran (["✓ pandas is installed"; "✓ numpy is installed";
          newline +:+ "✓ All required packages are installed"]%string, true).
Proof.
  unfold run_check, module_imports, check_requirements.
  cbn [forallb check_packages].
  destruct (importable "pandas"%string), (importable "numpy"%string);
    cbn [andb]; [right; reflexivity | left; reflexivity ..].
Qed.

(** ** The further properties at concrete inputs *)

Lemma lcg_choice_draws_from_pool : choice_draws_from_pool (np := TestRandom.lcg).
Proof.
  intros a size s Ha. cbn. unfold TestRandom.choice.
  destruct (TestRandom.stream (Z.to_nat size) s) as [l s']. cbn [fst].
  apply List.Forall_forall. intros x Hx.
  apply List.in_map_iff in Hx as (y & <- & _).
  apply List.nth_In.
  assert (0 < Z.of_nat (length a)) by (destruct a; [contradiction | cbn [length]; lia]).
  pose proof (Z.mod_pos_bound y (Z.of_nat (length a)) ltac:(lia)). lia.
Qed.

Lemma ascii_only_help : ascii_only "help".
Proof.
  apply List.Forall_forall. intros c Hc. cbn in Hc.
  repeat (destruct Hc as [<- | Hc]; [apply Nat.ltb_lt; reflexivity |]).
  contradiction.
Qed.

Lemma ascii_only_DEMO : ascii_only "DEMO".
Proof.
  apply List.Forall_forall. intros c Hc. cbn in Hc.
  repeat (destruct Hc as [<- | Hc]; [apply Nat.ltb_lt; reflexivity |]).
  contradiction.
Qed.

Lemma generator_touches_only_its_file_witness :
  exists w' events,
    create_large_sample_dataset (np := TestRandom.lcg) "sales.csv" 3 fixture_world
      = Ok (tt, w') /\
    (forall path, path <> "sales.csv"%string ->
                  fs w' !! path = fs fixture_world !! path) /\
    trace w' = trace fixture_world ++ events /\
    Forall (writes_to "sales.csv") events.
Proof.
  exact (generator_touches_only_its_file lcg_randint_length lcg_choice_length
           lcg_lognormal_length "sales.csv" 3 fixture_world).
Defined.

Lemma generator_rerun_witness :
  exists w1 w2,
    create_large_sample_dataset (np := TestRandom.lcg) "sales.csv" 3 fresh_world
      = Ok (tt, w1) /\
    create_large_sample_dataset (np := TestRandom.lcg) "sales.csv" 3 w1
      = Ok (tt, w2) /\
    fs w2 = fs w1.
Proof.
  exact (generator_rerun_idempotent lcg_randint_length lcg_choice_length
           lcg_lognormal_length lcg_seed_resets "sales.csv" 3 fresh_world).
Defined.

Lemma generator_batch_sizes_witness :
  exists w',
    create_large_sample_dataset (np := TestRandom.lcg) "sales.csv" 250000 fresh_world
      = Ok (tt, w') /\
    trace w' = trace fresh_world ++ EvToCsv "sales.csv" ModeW true 0 ::
                 List.map (EvToCsv "sales.csv" ModeA false)
                   (List.repeat 100000 (Z.to_nat (250000 / 100000)) ++
                    (if 250000 mod 100000 =? 0 then [] else [250000 mod 100000])) /\
    Forall (fun n => 1 <= n <= 100000) (batch_sizes 250000).
Proof.
  exact (generator_batch_sizes lcg_randint_length lcg_choice_length
           lcg_lognormal_length "sales.csv" 250000 fresh_world ltac:(lia)).
Defined.

Lemma nonpositive_row_count_witness :
  create_large_sample_dataset (np := TestRandom.lcg) "sales.csv" (-5) fresh_world =
  Ok (tt, mkWorld (42 mod 2 ^ 31)
            (<["sales.csv"%string := [HeaderLine columns]]> ∅)
            [EvToCsv "sales.csv" ModeW true 0]).
Proof.
  exact (nonpositive_row_count_header_only (np := TestRandom.lcg)
           "sales.csv" (-5) fresh_world ltac:(lia)).
Defined.

Lemma labels_witness :
  exists w' file,
    create_large_sample_dataset (np := TestRandom.lcg) "sales.csv" 3 fresh_world
      = Ok (tt, w') /\
    fs w' !! "sales.csv"%string = Some file /\
    Forall (fun r => In (Category r) categories /\
                     In (Region r) regions /\
                     exists k, 1 <= k <= 1000 /\
                               ProductName r = ("Product_" +:+ pretty k)%string)
      (data_rows file).
Proof.
  exact (labels_come_from_the_pools lcg_choice_draws_from_pool lcg_randint_length
           lcg_choice_length lcg_lognormal_length "sales.csv" 3 fresh_world).
Defined.

Lemma row_at_position_witness :
  exists w' file,
    create_large_sample_dataset (np := TestRandom.lcg) "sales.csv" 250000 fresh_world
      = Ok (tt, w') /\
    fs w' !! "sales.csv"%string = Some file /\
    nth (Z.to_nat 100000) (List.map TransactionID (data_rows file)) 0 = 100000 + 1 /\
    nth (Z.to_nat 100000) (List.map OrderDate (data_rows file)) 0 =
      date_2020_01_01 +
      (100000 mod 100000) * hours_per_batch_of 250000 (100000 / 100000 * 100000).
Proof.
  exact (row_at_position lcg_randint_length lcg_choice_length lcg_lognormal_length
           "sales.csv" 250000 100000 fresh_world ltac:(lia)).
Defined.

Lemma demo_leaves_files_alone_witness :
  run_demo_with_multiple_workers (np := TestRandom.lcg) "python3" None 3
    ServerExited world_with_default =
  Ok (tt, mkWorld 0 (fs world_with_default)
            (demo_events "python3" "sales_data_1m.csv" 3 ServerExited 0)).
Proof.
  apply (demo_leaves_files_alone (np := TestRandom.lcg) "python3" None 3
           ServerExited world_with_default).
  right. unfold world_with_default. cbn [fs].
  rewrite lookup_insert_eq. eexists. reflexivity.
Defined.

Lemma demo_processes_witness :
  exists writes,
    let dataset := "missing.csv"%string in
    let base := length (trace fresh_world ++ writes) in
    let worker := fun p : nat =>
      exists i, (i < Z.to_nat 3)%nat /\ p = (base + 2 + 2 * i)%nat in
    Forall (writes_to "sales_data_1m.csv") writes /\
    demo_events "python3" "missing.csv" 3 (Interrupted true) 0 =
      trace fresh_world ++ writes ++
      demo_events "python3" dataset 3 (Interrupted true) base /\
    (forall p argv,
       (length (trace fresh_world) <= p)%nat ->
       (nth_error (demo_events "python3" "missing.csv" 3 (Interrupted true) 0) p =
          Some (EvPopen argv) <->
        (p = base /\
         argv = ["python3"; "distributed_sales_system.py"; "server";
                 dataset]%string) \/
        (worker p /\
         argv = ["python3"; "distributed_sales_system.py"; "worker"]%string))) /\
    (forall p,
       (exists q, (length (trace fresh_world) <= q)%nat /\
                  nth_error (demo_events "python3" "missing.csv" 3 (Interrupted true) 0) q =
                    Some (EvTerminate p)) <->
       worker p \/ (p = base /\ Interrupted true = Interrupted true)).
Proof.
  exact (demo_terminates_exactly_its_workers (np := TestRandom.lcg) "python3"
           (Some "missing.csv"%string) 3 (Interrupted true) fresh_world
           (mkWorld 0 ∅ (demo_events "python3" "missing.csv" 3 (Interrupted true) 0))
           (run_demo_explicit_path (np := TestRandom.lcg) "python3" "missing.csv" 3
              (Interrupted true) fresh_world ltac:(discriminate))).
Defined.

Lemma main_unknown_command_witness :
  main (np := TestRandom.lcg) "python3" ["setup_and_demo.py"; "help"]%string
    ServerExited fresh_world = Ok (tt, fresh_world).
Proof.
  apply (main_ignores_unknown_commands (np := TestRandom.lcg)).
  right. split; [exact ascii_only_help |].
  cbn. intros [H | [H | [H | [H | [H | []]]]]]; discriminate H.
Defined.

Lemma main_case_witness :
  main (np := TestRandom.lcg) "python3" ["setup_and_demo.py"; "DEMO"]%string
    ServerExited fresh_world =
  main (np := TestRandom.lcg) "python3" ["setup_and_demo.py"; "demo"]%string
    ServerExited fresh_world.
Proof.
  exact (main_command_is_case_insensitive (np := TestRandom.lcg) "python3"
           "setup_and_demo.py" "DEMO" [] ServerExited fresh_world ascii_only_DEMO).
Defined.

Lemma cli_demo_witness :
  main (np := TestRandom.lcg) "python3" ["setup_and_demo.py"; "demo"]%string
    ServerExited fresh_world =
  Ok (tt, mkWorld 0 ∅ (demo_events "python3" "sales_data_1m.csv" 3 ServerExited 0)).
Proof.
  exact (cli_demo_writes_no_file (np := TestRandom.lcg) "python3"
           "setup_and_demo.py" "demo" [] ServerExited fresh_world eq_refl
           ltac:(discriminate)).
Defined.

Lemma cli_demo_empty_path_witness :
  exists w1 w' rows,
    create_large_sample_dataset (np := TestRandom.lcg) "sales_data_1m.csv" 1000000
      fresh_world = Ok (tt, w1) /\
    main (np := TestRandom.lcg) "python3" ["setup_and_demo.py"; "demo"; ""]%string
      ServerExited fresh_world = Ok (tt, w') /\
    fs w' !! "sales_data_1m.csv"%string =
      Some (HeaderLine columns :: List.map DataLine rows) /\
    Z.of_nat (length rows) = 1000000 /\
    trace w' = trace w1 ++ demo_events "python3" "sales_data_1m.csv" 3 ServerExited
                             (length (trace w1)).
Proof.
  exact (cli_demo_with_empty_path_generates "python3" lcg_randint_length
           lcg_choice_length lcg_lognormal_length "setup_and_demo.py" "demo" []
           ServerExited fresh_world eq_refl (lookup_empty _)).
Defined.

Lemma create_large_witness :
  exists w' total,
    main (np := TestRandom.lcg) "python3" ["setup_and_demo.py"; "create_large"]%string
      ServerExited fresh_world = Ok (tt, w') /\
    test_script CompensatedSum w' = Ok (total, w').
Proof.
  exact (create_large_feeds_test_script "python3" lcg_randint_length
           lcg_choice_length lcg_lognormal_length "setup_and_demo.py"
           ServerExited CompensatedSum fresh_world).
Defined.

Lemma create_small_witness :
  exists w',
    main (np := TestRandom.lcg) "python3" ["setup_and_demo.py"; "create_small"]%string
      ServerExited fresh_world = Ok (tt, w') /\
    test_script CompensatedSum w' = Raise FileNotFoundError.
Proof.
  exact (create_small_does_not_feed_test_script "python3" lcg_randint_length
           lcg_choice_length lcg_lognormal_length "setup_and_demo.py"
           ServerExited CompensatedSum fresh_world (lookup_empty _)).
Defined.
